(** * lamatrix: the abstract [Generator] of [src/lamatrix/generator.py]

    A shallow embedding of the base class of the lamatrix generators:
    prior validation, the weighted least-squares fit with Gaussian priors,
    evaluation and the significant-figure formatting of the report.

    Numbers are IEEE-754 binary64 values ([spec_float] with [prec = 53] and
    [emax = 1024]), so that infinities, NaN and signed zeros behave as they
    do for Python and NumPy floats.  What NumPy delegates to BLAS, LAPACK
    and libm (the inner product, [inv], [solve], [log10]) is a parameter of
    the development, class [NumLib]; a reference instance is given to run
    the code on concrete inputs. *)

From Stdlib Require Import String Ascii ZArith List Bool Lia PeanoNat.
From Stdlib Require Import Floats.SpecFloat.
From Stdlib Require Import DecimalString DecimalPos.
Import ListNotations.

Set Implicit Arguments.

(** ** Binary64 floats *)

Module F64.

Definition float := spec_float.

Definition prec : Z := 53.
Definition emax : Z := 1024.

Definition zero : float := S754_zero false.
Definition one : float := Eval cbv in SFone prec emax.
Definition ten : float := Eval cbv in binary_normalize prec emax 10 0 false.
Definition inf : float := S754_infinity false.
Definition nan : float := S754_nan.
Definition max_float : float := Eval cbv in SFmax_float prec emax.

Definition add : float -> float -> float := SFadd prec emax.
Definition sub : float -> float -> float := SFsub prec emax.
Definition mul : float -> float -> float := SFmul prec emax.
Definition div : float -> float -> float := SFdiv prec emax.
Definition sqrt : float -> float := SFsqrt prec emax.
Definition abs : float -> float := SFabs.
Definition opp : float -> float := SFopp.
Definition eqb : float -> float -> bool := SFeqb.
Definition ltb : float -> float -> bool := SFltb.
Definition leb : float -> float -> bool := SFleb.
Definition valid : float -> bool := valid_binary prec emax.

(** The float nearest to an integer (round to nearest, ties to even). *)
Definition of_Z (z : Z) : float := binary_normalize prec emax z 0 false.

(** [math.isinf], [math.isnan], [math.isfinite]. *)
Definition isinf (x : float) : bool :=
  match x with S754_infinity _ => true | _ => false end.
Definition isnan (x : float) : bool :=
  match x with S754_nan => true | _ => false end.
Definition isfinite (x : float) : bool :=
  match x with S754_zero _ | S754_finite _ _ _ => true | _ => false end.
Definition is_zero (x : float) : bool :=
  match x with S754_zero _ => true | _ => false end.

(** [np.nan_to_num] with its default arguments: NaN becomes [0.0], the
    infinities become the largest finite floats of their sign. *)
Definition nan_to_num (x : float) : float :=
  match x with
  | S754_nan => zero
  | S754_infinity false => max_float
  | S754_infinity true => opp max_float
  | _ => x
  end.

(** [x ** 2] on a float array is NumPy's [square], the product [x * x]. *)
Definition square (x : float) : float := mul x x.

End F64.

Abbreviation float := F64.float.

(** ** Python exceptions and results *)

Inductive exn : Type :=
| ValueError (msg : string)
| IndexError
| TypeError
| AttributeError (attr : string)
| OverflowError
| LinAlgError.

Inductive result (A : Type) : Type :=
| Ok (a : A)
| Raise (e : exn).
Arguments Ok {A} a.
Arguments Raise {A} e.

Definition rbind {A B} (r : result A) (f : A -> result B) : result B :=
  match r with
  | Ok a => f a
  | Raise e => Raise e
  end.

Definition is_ok {A} (r : result A) : bool :=
  match r with Ok _ => true | Raise _ => false end.

(** ** NumPy arrays *)

(** An n-dimensional float array: its shape and its elements in C order
    (what [ravel] returns).  Shapes are those of arrays held in memory, so
    the product of the dimensions is computed without overflow. *)
Record ndarray : Type := { shape : list nat; ravel : list float }.

(** A boolean array, as used for [mask]. *)
Record boolarray : Type := { bshape : list nat; bravel : list bool }.

(** A 2-D float array, row by row; [X.shape = (nrows X, ncols X)]. *)
Record matrix : Type := { ncols : nat; rows : list (list float) }.

Definition nrows (X : matrix) : nat := length (rows X).

(** [np.prod] of a shape tuple. *)
Definition np_prod (shp : list nat) : nat := fold_right Nat.mul 1%nat shp.

Definition np_zeros (n : nat) : list float := repeat F64.zero n.
Definition np_ones (n : nat) : list float := repeat F64.one n.

(** [np.ones(n) * x]. *)
Definition scale (v : list float) (x : float) : list float :=
  map (fun a => F64.mul a x) v.

Definition np_ones_like (a : ndarray) : ndarray :=
  {| shape := shape a; ravel := np_ones (length (ravel a)) |}.

(** [a[mask]] for a boolean [mask] over the first axis: the lengths have to
    agree, else NumPy raises [IndexError]. *)
Fixpoint select {A} (mask : list bool) (xs : list A) : list A :=
  match mask, xs with
  | b :: mask', x :: xs' => if b then x :: select mask' xs' else select mask' xs'
  | _, _ => []
  end.

Definition take_mask {A} (mask : list bool) (xs : list A) : result (list A) :=
  if (length mask =? length xs)%nat then Ok (select mask xs) else Raise IndexError.

Definition index_rows (X : matrix) (mask : list bool) : result matrix :=
  rbind (take_mask mask (rows X)) (fun rs => Ok {| ncols := ncols X; rows := rs |}).

(** Element-wise binary operation on two 1-D arrays of the same length.
    The generator keeps [len(prior_mu) = len(prior_sigma) = width], so
    NumPy's stretching of a length-1 operand is not modelled: operands of
    different lengths raise the broadcast [ValueError]. *)
Fixpoint zip_with {A B C} (f : A -> B -> C) (xs : list A) (ys : list B) : list C :=
  match xs, ys with
  | x :: xs', y :: ys' => f x y :: zip_with f xs' ys'
  | _, _ => []
  end.

Definition broadcast_error : exn :=
  ValueError "operands could not be broadcast together".

Definition elementwise (f : float -> float -> float) (xs ys : list float)
  : result (list float) :=
  if (length xs =? length ys)%nat then Ok (zip_with f xs ys)
  else Raise broadcast_error.

(** [X / e[:, None]]: row [i] of [X] divided by [e_i]. *)
Definition div_rows (X : matrix) (e : list float) : result matrix :=
  if (nrows X =? length e)%nat
  then Ok {| ncols := ncols X;
             rows := zip_with (fun r ei => map (fun x => F64.div x ei) r) (rows X) e |}
  else Raise broadcast_error.

(** Column [j] of [X], that is row [j] of [X.T]. *)
Definition column (X : matrix) (j : nat) : list float :=
  map (fun r => nth j r F64.zero) (rows X).

Definition columns (X : matrix) : list (list float) :=
  map (column X) (seq 0 (ncols X)).

(** [np.diag(v)] for a 1-D [v]. *)
Definition np_diag (v : list float) : matrix :=
  let n := length v in
  {| ncols := n;
     rows := map (fun i => map (fun j => if (i =? j)%nat then nth i v F64.zero else F64.zero)
                               (seq 0 n))
                 (seq 0 n) |}.

(** [M.diagonal()]. *)
Definition diagonal (M : matrix) : list float :=
  map (fun i => nth i (nth i (rows M) []) F64.zero)
      (seq 0 (Nat.min (nrows M) (ncols M))).

(** [A + B] for two 2-D arrays of the same shape. *)
Definition mat_add (A B : matrix) : result matrix :=
  if ((nrows A =? nrows B) && (ncols A =? ncols B))%nat
  then Ok {| ncols := ncols A;
             rows := zip_with (zip_with F64.add) (rows A) (rows B) |}
  else Raise broadcast_error.

(** ** The numerical back end

    NumPy hands inner products to BLAS, [np.linalg.inv] and
    [np.linalg.solve] to LAPACK, and Python hands [math.log10] to libm.
    Their rounding is not fixed by the repository, so they are taken as an
    interface.  [linalg_inv] and [linalg_solve] can raise, as LAPACK does
    with [LinAlgError] on a matrix in which it meets a zero pivot; nothing
    is assumed about when they do. *)
Class NumLib : Type := {
  vdot : list float -> list float -> float;
  linalg_inv : matrix -> result matrix;
  linalg_solve : matrix -> list float -> result (list float);
  math_log10 : float -> float
}.

Definition shape_error : exn := ValueError "shapes not aligned".

Section Products.
Context {L : NumLib}.

(** [X.dot(v)] for a 1-D [v]. *)
Definition dot_mv (X : matrix) (v : list float) : result (list float) :=
  if (ncols X =? length v)%nat then Ok (map (fun r => vdot r v) (rows X))
  else Raise shape_error.

(** [X.T.dot(v)] for a 1-D [v]. *)
Definition dot_tv (X : matrix) (v : list float) : result (list float) :=
  if (nrows X =? length v)%nat then Ok (map (fun c => vdot c v) (columns X))
  else Raise shape_error.

(** [X.T.dot(Y)] for a 2-D [Y]. *)
Definition dot_tm (X Y : matrix) : result matrix :=
  if (nrows X =? nrows Y)%nat
  then Ok {| ncols := ncols Y;
             rows := map (fun c => map (fun d => vdot c d) (columns Y)) (columns X) |}
  else Raise shape_error.
End Products.

(** ** Python values handed to the constructor *)

Inductive seq_kind : Type := PyList | PyTuple | NdArray.

(** A sequence of numbers: a list, a tuple or a 1-D array. *)
Record pyseq : Type := { kind : seq_kind; items : list float }.

Definition array (xs : list float) : pyseq := {| kind := NdArray; items := xs |}.

(** What [prior_mu] and [prior_sigma] can be: [None], a [float] or an [int]
    (given by the float it converts to), a list, tuple or array, or an
    object of any other type. *)
Inductive pyobj : Type :=
| PyNone
| PyScalar (x : float)
| PySeq (s : pyseq)
| PyOther.

(** [s ** 2]: defined on arrays; a list or a tuple raises [TypeError]. *)
Definition seq_square (s : pyseq) : result (list float) :=
  match kind s with
  | NdArray => Ok (map F64.square (items s))
  | _ => Raise TypeError
  end.

(** ** The generator *)

(** The abstract members a concrete generator provides. *)
Class GeneratorImpl : Type := {
  Inputs : Type;
  width : nat;
  design_matrix : Inputs -> matrix
}.

(** The attributes the base class reads and writes.  [prior_mu] and
    [prior_sigma] are [None] as long as the attribute does not exist; the
    other four are Python's [None] until a fit. *)
Record Generator : Type := {
  prior_mu : option pyseq;
  prior_sigma : option pyseq;
  fit_mu : option pyseq;
  fit_sigma : option pyseq;
  cov : option matrix;
  data_shape : option (list nat)
}.

(** *** Methods: state and exceptions *)

Definition M (A : Type) : Type := Generator -> result A * Generator.

Definition ret {A} (a : A) : M A := fun self => (Ok a, self).
Definition raise {A} (e : exn) : M A := fun self => (Raise e, self).
Definition bind {A B} (c : M A) (f : A -> M B) : M B :=
  fun self =>
    match c self with
    | (Ok a, self') => f a self'
    | (Raise e, self') => (Raise e, self')
    end.
Definition lift {A} (r : result A) : M A := fun self => (r, self).

Notation "x <- c1 ;; c2" := (bind c1 (fun x => c2))
  (at level 61, c1 at next level, right associativity).
Notation "c1 ;; c2" := (bind c1 (fun _ => c2))
  (at level 61, right associativity).

(** Reading an attribute that may not exist. *)
Definition getattr {A} (name : string) (field : Generator -> option A) : M A :=
  fun self =>
    match field self with
    | Some a => (Ok a, self)
    | None => (Raise (AttributeError name), self)
    end.

Definition with_prior_mu (v : pyseq) (self : Generator) : Generator :=
  {| prior_mu := Some v; prior_sigma := prior_sigma self;
     fit_mu := fit_mu self; fit_sigma := fit_sigma self;
     cov := cov self; data_shape := data_shape self |}.

Definition with_prior_sigma (v : pyseq) (self : Generator) : Generator :=
  {| prior_mu := prior_mu self; prior_sigma := Some v;
     fit_mu := fit_mu self; fit_sigma := fit_sigma self;
     cov := cov self; data_shape := data_shape self |}.

Definition with_cov (C : matrix) (self : Generator) : Generator :=
  {| prior_mu := prior_mu self; prior_sigma := prior_sigma self;
     fit_mu := fit_mu self; fit_sigma := fit_sigma self;
     cov := Some C; data_shape := data_shape self |}.

Definition with_data_shape (shp : list nat) (self : Generator) : Generator :=
  {| prior_mu := prior_mu self; prior_sigma := prior_sigma self;
     fit_mu := fit_mu self; fit_sigma := fit_sigma self;
     cov := cov self; data_shape := Some shp |}.

(** Assignments [self.attr = v]. *)
Definition set_prior_mu (v : pyseq) : M unit :=
  fun self => (Ok tt, with_prior_mu v self).
Definition set_prior_sigma (v : pyseq) : M unit :=
  fun self => (Ok tt, with_prior_sigma v self).
Definition set_cov (C : matrix) : M unit :=
  fun self => (Ok tt, with_cov C self).
Definition set_data_shape (shp : list nat) : M unit :=
  fun self => (Ok tt, with_data_shape shp self).

(** A generator as its constructor finds it: nothing set. *)
Definition blank : Generator :=
  {| prior_mu := None; prior_sigma := None; fit_mu := None; fit_sigma := None;
     cov := None; data_shape := None |}.

Section Priors.
Context {G : GeneratorImpl}.

Definition _validate_priors (mu0 sigma0 : pyobj) : M unit :=
  match mu0 with
  | PyNone => set_prior_mu (array (np_zeros width))
  | PyScalar x => set_prior_mu (array (scale (np_ones width) x))
  | PySeq s =>
      if (length (items s) =? width)%nat then set_prior_mu s else ret tt
  | PyOther => raise (ValueError "Can not parse `prior_mu`.")
  end ;;
  match sigma0 with
  | PyNone => set_prior_sigma (array (scale (np_ones width) F64.inf))
  | PyScalar x => set_prior_sigma (array (scale (np_ones width) x))
  | PySeq s =>
      if (length (items s) =? width)%nat then set_prior_sigma s else ret tt
  | PyOther => raise (ValueError "Can not parse `prior_sigma`.")
  end.
End Priors.

(** ** Python's number formatting *)

Notation "x <~ r1 ;; r2" := (rbind r1 (fun x => r2))
  (at level 61, r1 at next level, right associativity).

Open Scope string_scope.

(** [str(n)] for an [int]. *)
Definition py_str (n : Z) : string := NilZero.string_of_int (Z.to_int n).

(** [math.floor]: the largest integer below a finite float. *)
Definition py_floor (x : float) : result Z :=
  match x with
  | S754_nan => Raise (ValueError "cannot convert float NaN to integer")
  | S754_infinity _ => Raise OverflowError
  | S754_zero _ => Ok 0%Z
  | S754_finite s m e => Ok (Z.shiftl (cond_Zopp s (Zpos m)) e)
  end.

(** The integer nearest to [m * 10^p * 2^e], ties to even. *)
Definition round_scaled (m : positive) (e : Z) (p : N) : Z :=
  let num := (Zpos m * 10 ^ Z.of_N p)%Z in
  if (0 <=? e)%Z then (num * 2 ^ e)%Z
  else
    let den := (2 ^ (- e))%Z in
    let q := (num / den)%Z in
    match (2 * (num mod den) ?= den)%Z with
    | Lt => q
    | Gt => (q + 1)%Z
    | Eq => if Z.even q then q else (q + 1)%Z
    end.

Fixpoint zeros (n : nat) : string :=
  match n with
  | O => ""
  | S n' => String "0" (zeros n')
  end.

(** The decimal digits of [n] with the point [p] places from the right. *)
Definition place_point (n : Z) (p : N) : string :=
  let ds := NilZero.string_of_uint (N.to_uint (Z.to_N n)) in
  let p := N.to_nat p in
  let ds := zeros (S p - String.length ds) ++ ds in
  let k := (String.length ds - p)%nat in
  match p with
  | O => ds
  | _ => substring 0 k ds ++ "." ++ substring k p ds
  end.

(** [format(x, ".pf")]: fixed-point notation with [p] decimals, correctly
    rounded from the exact value of [x]. *)
Definition format_fixed (x : float) (p : N) : string :=
  match x with
  | S754_nan => "nan"
  | S754_infinity s => (if s then "-" else "") ++ "inf"
  | S754_zero s => (if s then "-" else "") ++ place_point 0 p
  | S754_finite s m e => (if s then "-" else "") ++ place_point (round_scaled m e p) p
  end.

Definition is_digit (c : ascii) : bool :=
  ((48 <=? nat_of_ascii c) && (nat_of_ascii c <=? 57))%nat.

(** The longest prefix of digits and what follows it. *)
Fixpoint read_digits (s : string) : string * string :=
  match s with
  | String c s' =>
      if is_digit c then let (ds, tl) := read_digits s' in (String c ds, tl)
      else ("", s)
  | EmptyString => ("", "")
  end.

(** [format(x, spec)] for the specs an f-string [f"{x:.{n}f}"] builds: a
    point, a precision and the type [f].  Python reads the precision as a
    run of digits after the point and raises [ValueError] when there is
    none. *)
Definition py_format_float (x : float) (spec : string) : result string :=
  match spec with
  | String "." rest =>
      let (ds, tl) := read_digits rest in
      match ds, NilEmpty.uint_of_string ds with
      | String _ _, Some u =>
          if String.eqb tl "f" then Ok (format_fixed x (N.of_uint u))
          else Raise (ValueError "Invalid format specifier")
      | _, _ => Raise (ValueError "Format specifier missing precision")
      end
  | _ => Raise (ValueError "Invalid format specifier")
  end.

Section Report.
Context {L : NumLib}.

Definition format_significant_figures (mean error : float)
  : result (string * string) :=
  if F64.isinf mean || F64.isinf error || F64.isnan mean || F64.isnan error
  then Ok ("0", "\infty")
  else
    sig_figures <~ (if F64.eqb error F64.zero then Ok 0%Z
                    else k <~ py_floor (math_log10 (F64.abs error)) ;; Ok (- k)%Z) ;;
    formatted_mean <~ py_format_float mean ("." ++ py_str sig_figures ++ "f") ;;
    formatted_error <~ py_format_float error ("." ++ py_str sig_figures ++ "f") ;;
    Ok (formatted_mean, formatted_error).
End Report.

(** ** Fit and evaluation *)

Section Fit.
Context {L : NumLib} {G : GeneratorImpl}.

(** One entry of [np.nan_to_num(prior_mu / prior_sigma ** 2)] and of
    [1 / prior_sigma ** 2]. *)
Definition prior_term (mu sigma : float) : float :=
  F64.nan_to_num (F64.div mu (F64.square sigma)).

Definition prior_precision (sigma : float) : float :=
  F64.div F64.one (F64.square sigma).

(** [np.nan_to_num(self.prior_mu / self.prior_sigma ** 2)], the prior's
    part of the right-hand side. *)
Definition prior_rhs (mu0 sigma : pyseq) : result (list float) :=
  s2 <~ seq_square sigma ;;
  ratio <~ elementwise F64.div (items mu0) s2 ;;
  Ok (map F64.nan_to_num ratio).

(** [np.diag(1 / self.prior_sigma ** 2)], the prior's precision. *)
Definition prior_diag (sigma : pyseq) : result matrix :=
  s2 <~ seq_square sigma ;;
  Ok (np_diag (map (F64.div F64.one) s2)).

(** [mask], or [np.ones(np.prod(data.shape), bool)] when it is [None].
    For a 0-d [data] the product [np.prod(())] is the float [1.0], which
    [np.ones] refuses as a length. *)
Definition default_mask (data : ndarray) (mask : option boolarray)
  : result boolarray :=
  match mask, shape data with
  | Some m, _ => Ok m
  | None, [] => Raise TypeError
  | None, _ => Ok {| bshape := [np_prod (shape data)];
                     bravel := repeat true (np_prod (shape data)) |}
  end.

Definition default_errors (data : ndarray) (errors : option ndarray) : ndarray :=
  match errors with
  | None => np_ones_like data
  | Some e => e
  end.

Definition _fit (data : ndarray) (errors : option ndarray)
    (mask : option boolarray) (args : Inputs) : M (pyseq * pyseq) :=
  let X := design_matrix args in
  if negb (np_prod (shape data) =? nrows X)%nat
  then raise (ValueError ("Data must have shape " ++
                          NilZero.string_of_uint (Nat.to_uint (nrows X))))
  else
    let errors := default_errors data errors in
    mask <- lift (default_mask data mask) ;;
    set_data_shape (shape data) ;;
    let mask := bravel mask in
    Xm <- lift (index_rows X mask) ;;
    em <- lift (take_mask mask (ravel errors)) ;;
    Xw <- lift (div_rows Xm (map F64.square em)) ;;
    gram <- lift (dot_tm Xm Xw) ;;
    sigma <- getattr "prior_sigma" prior_sigma ;;
    P <- lift (prior_diag sigma) ;;
    sigma_w_inv <- lift (mat_add gram P) ;;
    C <- lift (linalg_inv sigma_w_inv) ;;
    set_cov C ;;
    dm <- lift (take_mask mask (ravel data)) ;;
    y <- lift (elementwise F64.div dm (map F64.square em)) ;;
    Xty <- lift (dot_tv Xm y) ;;
    mu0 <- getattr "prior_mu" prior_mu ;;
    sigma <- getattr "prior_sigma" prior_sigma ;;
    pb <- lift (prior_rhs mu0 sigma) ;;
    B <- lift (elementwise F64.add Xty pb) ;;
    fit_mu <- lift (linalg_solve sigma_w_inv B) ;;
    C <- getattr "cov" cov ;;
    let fit_sigma := map F64.sqrt (diagonal C) in
    ret (array fit_mu, array fit_sigma).

Definition mu : M pyseq := fun self =>
  match fit_mu self with
  | None => getattr "prior_mu" prior_mu self
  | Some m => (Ok m, self)
  end.

Definition sigma : M pyseq := fun self =>
  match fit_sigma self with
  | None => getattr "prior_sigma" prior_sigma self
  | Some s => (Ok s, self)
  end.

(** The 1-D result of [X.dot(mu)] and its reshaped form. *)
Definition flat (v : list float) : ndarray := {| shape := [length v]; ravel := v |}.
Definition reshape (v : list float) (shp : list nat) : ndarray :=
  {| shape := shp; ravel := v |}.

Definition evaluate (args : Inputs) : M ndarray :=
  let X := design_matrix args in
  shp <- (fun self => (Ok (data_shape self), self)) ;;
  match shp with
  | Some shp =>
      if (nrows X =? np_prod shp)%nat
      then m <- mu ;; v <- lift (dot_mv X (items m)) ;; ret (reshape v shp)
      else m <- mu ;; v <- lift (dot_mv X (items m)) ;; ret (flat v)
  | None => m <- mu ;; v <- lift (dot_mv X (items m)) ;; ret (flat v)
  end.

(** *** The normal equations, as the specification words them

    [A = X[mask]^T . diag(1/errors^2) . X[mask] + diag(1/prior_sigma^2)]
    and [b = X[mask]^T . (data/errors^2) + prior_mu/prior_sigma^2], the
    weights applied to the rows of [X[mask]] and the prior's ratio passed
    through [nan_to_num].  [attr] reads an attribute of the instance. *)
Definition attr {A} (name : string) (o : option A) : result A :=
  match o with
  | Some a => Ok a
  | None => Raise (AttributeError name)
  end.

Definition normal_matrix (X : matrix) (mask : list bool) (errors : list float)
    (sigma : option pyseq) : result matrix :=
  Xm <~ index_rows X mask ;;
  em <~ take_mask mask errors ;;
  Xw <~ div_rows Xm (map F64.square em) ;;
  gram <~ dot_tm Xm Xw ;;
  sigma <~ attr "prior_sigma" sigma ;;
  P <~ prior_diag sigma ;;
  mat_add gram P.

Definition right_hand_side (X : matrix) (mask : list bool) (data errors : list float)
    (mu0 sigma : option pyseq) : result (list float) :=
  Xm <~ index_rows X mask ;;
  em <~ take_mask mask errors ;;
  dm <~ take_mask mask data ;;
  y <~ elementwise F64.div dm (map F64.square em) ;;
  Xty <~ dot_tv Xm y ;;
  mu0 <~ attr "prior_mu" mu0 ;;
  sigma <~ attr "prior_sigma" sigma ;;
  pb <~ prior_rhs mu0 sigma ;;
  elementwise F64.add Xty pb.

(** Entry [(i, j)] of a 2-D array. *)
Definition entry (A : matrix) (i j : nat) : float :=
  nth j (nth i (rows A) []) F64.zero.
End Fit.

(** ** A reference back end

    Left-to-right inner products, Gauss-Jordan elimination with partial
    pivoting for [inv] and [solve], and the exact integer part of the
    decimal logarithm for [log10].  It is one admissible [NumLib]; the
    general results below hold for every instance. *)

Module Reference.

Definition vdot_ref (u v : list float) : float :=
  fold_left F64.add (zip_with F64.mul u v) F64.zero.

(** The row of [r :: todo] with the largest entry, in absolute value, in
    column [c], and the other rows. *)
Fixpoint pick_pivot (c : nat) (best : list float) (others todo : list (list float))
  : list float * list (list float) :=
  match todo with
  | [] => (best, others)
  | r :: todo' =>
      if F64.ltb (F64.abs (nth c best F64.zero)) (F64.abs (nth c r F64.zero))
      then pick_pivot c r (best :: others) todo'
      else pick_pivot c best (r :: others) todo'
  end.

(** [r - r[c] * p]: clears column [c] of [r] with the pivot row [p]. *)
Definition eliminate (c : nat) (p r : list float) : list float :=
  zip_with (fun ri pi => F64.sub ri (F64.mul (nth c r F64.zero) pi)) r p.

Fixpoint gauss_jordan (n c : nat) (done todo : list (list float))
  : result (list (list float)) :=
  match n with
  | O => Ok done
  | S n' =>
      match todo with
      | [] => Raise LinAlgError
      | r :: todo' =>
          let (p, rest) := pick_pivot c r [] todo' in
          let piv := nth c p F64.zero in
          if F64.eqb piv F64.zero then Raise LinAlgError
          else
            let p' := map (fun x => F64.div x piv) p in
            gauss_jordan n' (S c) (map (eliminate c p') done ++ [p'])%list
                         (map (eliminate c p') rest)
      end
  end.

Definition is_square (A : matrix) : bool :=
  (nrows A =? ncols A)%nat && forallb (fun r => (length r =? ncols A)%nat) (rows A).

Definition inv_ref (A : matrix) : result matrix :=
  if is_square A then
    let n := ncols A in
    rs <~ gauss_jordan n 0 [] (zip_with (@app float) (rows A) (rows (np_diag (np_ones n)))) ;;
    Ok {| ncols := n; rows := map (skipn n) rs |}
  else Raise LinAlgError.

Definition solve_ref (A : matrix) (b : list float) : result (list float) :=
  if is_square A then
    let n := ncols A in
    if (length b =? n)%nat then
      rs <~ gauss_jordan n 0 [] (zip_with (fun r bi => (r ++ [bi])%list) (rows A) b) ;;
      Ok (map (fun r => nth n r F64.zero) rs)
    else Raise shape_error
  else Raise LinAlgError.

(** [floor(log10 n)] for an integer [n >= 1]. *)
Fixpoint ilog10 (fuel : nat) (n : Z) : Z :=
  match fuel with
  | O => 0
  | S fuel' => if (n <? 10)%Z then 0%Z else (1 + ilog10 fuel' (n / 10))%Z
  end.

Definition ilog10_Z (n : Z) : Z := ilog10 (S (Z.to_nat (Z.log2 n))) n.

(** [floor(log10 (m * 2^e))]. *)
Definition floor_log10 (m : positive) (e : Z) : Z :=
  if (0 <=? e)%Z then ilog10_Z (Zpos m * 2 ^ e)
  else
    let den := (2 ^ (- e))%Z in
    if (den <=? Zpos m)%Z then ilog10_Z (Zpos m / den)
    else (- (ilog10_Z ((den + Zpos m - 1) / Zpos m - 1) + 1))%Z.

Definition log10_ref (x : float) : float :=
  match x with
  | S754_finite false m e => F64.of_Z (floor_log10 m e)
  | S754_zero _ => S754_infinity true
  | S754_infinity false => x
  | _ => S754_nan
  end.

Definition numlib : NumLib :=
  {| vdot := vdot_ref; linalg_inv := inv_ref; linalg_solve := solve_ref;
     math_log10 := log10_ref |}.

(** A concrete generator: [width] columns of ones over [n] rows. *)
Definition constant (w : nat) : GeneratorImpl :=
  {| Inputs := nat; width := w;
     design_matrix := fun n => {| ncols := w; rows := repeat (repeat F64.one w) n |} |}.

(** A generator built on an explicit design matrix. *)
Definition tabulated (w : nat) : GeneratorImpl :=
  {| Inputs := list (list float); width := w;
     design_matrix := fun rs => {| ncols := w; rows := rs |} |}.

(** A generator of width [w] after construction with the default priors. *)
Definition unfitted (w : nat) : Generator :=
  with_prior_sigma (array (repeat F64.inf w))
    (with_prior_mu (array (repeat F64.zero w)) blank).

(** A generator of width 1 after a fit to data of shape [(2, 3)]. *)
Definition fitted : Generator :=
  {| prior_mu := Some (array [F64.zero]);
     prior_sigma := Some (array [F64.inf]);
     fit_mu := Some (array [F64.of_Z 3]);
     fit_sigma := Some (array [F64.one]);
     cov := Some {| ncols := 1; rows := [[F64.one]] |};
     data_shape := Some [2; 3]%nat |}.

(** The 1-D array of the given integers. *)
Definition vector (zs : list Z) : ndarray :=
  {| shape := [length zs]; ravel := map F64.of_Z zs |}.

End Reference.


(** ** The rest of the class *)

(** An entry of [arg_names]: a [str], or an object of another type given by
    what [str()] shows of it. *)
Inductive pyname : Type :=
| PyStr (s : string)
| PyNotStr (shown : string).

Fixpoint _validate_arg_names (arg_names : list pyname) : result unit :=
  match arg_names with
  | [] => Ok tt
  | PyStr _ :: rest => _validate_arg_names rest
  | PyNotStr _ :: _ => Raise (ValueError "Argument names must be strings.")
  end.

Section Call.
Context {L : NumLib} {G : GeneratorImpl}.

Definition __call__ (args : Inputs) : M ndarray := evaluate args.
End Call.

(** ** The report *)

(** The line feed. *)
Definition nl : string := String (ascii_of_nat 10) EmptyString.

(** [sep.join(parts)]. *)
Fixpoint py_join (sep : string) (parts : list string) : string :=
  match parts with
  | [] => ""
  | p :: rest =>
      match rest with
      | [] => p
      | _ :: _ => p ++ sep ++ py_join sep rest
      end
  end.

(** [[f x for x in xs]] when [f] can raise: the first exception ends the
    comprehension. *)
Fixpoint rmap {A B} (f : A -> result B) (xs : list A) : result (list B) :=
  match xs with
  | [] => Ok []
  | x :: xs' => y <~ f x ;; ys <~ rmap f xs' ;; Ok (y :: ys)
  end.

(** [s[idx]] for an index that is not negative. *)
Definition getitem (s : pyseq) (idx : nat) : result float :=
  match nth_error (items s) idx with
  | Some x => Ok x
  | None => Raise IndexError
  end.

(** One row of [table_properties]: the symbol, the current value and
    uncertainty, the prior value and uncertainty. *)
Definition table_entry : Type := string * (float * float) * option (float * float).

Definition table_property (self : Generator) (idx : nat) : result table_entry :=
  m <~ fst (mu self) ;;
  mi <~ getitem m idx ;;
  s <~ fst (sigma self) ;;
  si <~ getitem s idx ;;
  pm <~ attr "prior_mu" (prior_mu self) ;;
  pmi <~ getitem pm idx ;;
  ps <~ attr "prior_sigma" (prior_sigma self) ;;
  psi <~ getitem ps idx ;;
  Ok ("w_{idx}", (mi, si), Some (pmi, psi)).

(** What [str.format] raises besides the exceptions of [exn]; [Unmodelled]
    stands for a replacement field with a conversion, a format spec, an
    attribute or an index, which this development does not interpret. *)
Inductive format_exn : Type :=
| Exn (e : exn)
| KeyError (key : string)
| Unmodelled.

Inductive outcome (A : Type) : Type :=
| Done (a : A)
| Failed (e : format_exn).
Arguments Done {A} a.
Arguments Failed {A} e.

Definition obind {A B} (o : outcome A) (f : A -> outcome B) : outcome B :=
  match o with
  | Done a => f a
  | Failed e => Failed e
  end.

Definition of_result {A} (r : result A) : outcome A :=
  match r with
  | Ok a => Done a
  | Raise e => Failed (Exn e)
  end.

Definition plain_name_char (c : ascii) : bool :=
  negb (existsb (Ascii.eqb c) ["!"; ":"; "."; "["; "{"]%char).

(** What a replacement field named [name] stands for, when [format] is
    called with the single keyword argument [idx]. *)
Definition replacement (idx : nat) (name : string) : outcome string :=
  if negb (forallb plain_name_char (list_ascii_of_string name)) then Failed Unmodelled
  else if String.eqb name "idx" then Done (NilZero.string_of_uint (Nat.to_uint idx))
  else if forallb is_digit (list_ascii_of_string name) then Failed (Exn IndexError)
  else Failed (KeyError name).

(** [s.format(idx=idx)].  [field] holds the name read so far when the scan
    is inside a replacement field. *)
Fixpoint str_format (idx : nat) (field : option string) (s : string) : outcome string :=
  match field, s with
  | None, EmptyString => Done ""
  | None, String "{" s' =>
      match s' with
      | String "{" s'' => obind (str_format idx None s'') (fun r => Done (String "{" r))
      | _ => str_format idx (Some "") s'
      end
  | None, String "}" s' =>
      match s' with
      | String "}" s'' => obind (str_format idx None s'') (fun r => Done (String "}" r))
      | _ => Failed (Exn (ValueError "Single '}' encountered in format string"))
      end
  | None, String c s' => obind (str_format idx None s') (fun r => Done (String c r))
  | Some name, EmptyString =>
      Failed (Exn (ValueError "expected '}' before end of string"))
  | Some name, String "}" s' =>
      obind (replacement idx name) (fun v =>
      obind (str_format idx None s') (fun r => Done (v ++ r)))
  | Some name, String c s' => str_format idx (Some (name ++ String c "")) s'
  end.

(** The abstract members the report reads. *)
Class ReportImpl : Type := {
  arg_names : list pyname;
  _equation : list string
}.

(** [str(a)] for an argument name. *)
Definition shown (a : pyname) : string :=
  match a with PyStr s => s | PyNotStr s => s end.

Section Latex.
Context {L : NumLib} {G : GeneratorImpl} {R : ReportImpl}.

Definition table_properties (self : Generator) : result (list table_entry) :=
  rmap (table_property self) (seq 0 width).

Definition table_row (p : table_entry) : result string :=
  let '(symbol, fit, prior) := p in
  f <~ format_significant_figures (fst fit) (snd fit) ;;
  q <~ match prior with
       | Some pr => format_significant_figures (fst pr) (snd pr)
       | None => Ok ("", "")
       end ;;
  Ok (symbol ++ " & $" ++ fst f ++ " \pm " ++ snd f ++ "$  & $"
        ++ fst q ++ " \pm " ++ snd q ++ "$ \\\hline" ++ nl).

Definition _get_table_matter (self : Generator) : result (list string) :=
  props <~ table_properties self ;;
  rmap table_row props.

(** The loop of [_to_latex_table]: the rows from [idx] on, formatted and
    appended to [latex_table]. *)
Fixpoint append_rows (latex_table : string) (idx : nat) (rows : list string)
  : outcome string :=
  match rows with
  | [] => Done latex_table
  | tm :: rows' =>
      obind (str_format idx None tm) (fun r =>
      append_rows (latex_table ++ r) (S idx) rows')
  end.

Definition table_header : string :=
  "\begin{table}[h!]" ++ nl ++ "\centering" ++ nl
  ++ "\begin{tabular}{|c|c|c|}" ++ nl ++ "\hline" ++ nl
  ++ "Coefficient & Best Fit & Prior \\\hline" ++ nl.

Definition table_footer : string := "\end{tabular}" ++ nl ++ "\end{table}".

Definition _to_latex_table (self : Generator) : outcome string :=
  obind (of_result (_get_table_matter self)) (fun matter =>
  obind (append_rows table_header 0 matter) (fun latex_table =>
  Done (latex_table ++ table_footer))).

Definition equation : string :=
  let func_signature :=
    py_join ", " (map (fun a => "\mathbf{" ++ shown a ++ "}") arg_names) in
  "\[f(" ++ func_signature ++ ") = "
  ++ py_join " + "
       (map (fun ce => "w_{" ++ NilZero.string_of_uint (Nat.to_uint (fst ce)) ++ "} "
                       ++ snd ce)
            (combine (seq 0 (length _equation)) _equation))
  ++ "\]".

Definition to_latex (self : Generator) : outcome string :=
  obind (_to_latex_table self) (fun table =>
  Done (py_join nl [equation; table])).
End Latex.

(** The report of a generator of one argument [x] and the single term
    [x]. *)
Definition linear_report : ReportImpl :=
  {| arg_names := [PyStr "x"]; _equation := ["x"] |}.

(** A generator of width 1 after a fit that left the coefficient 3 with
    the uncertainty 12. *)
Definition wide_fit : Generator :=
  {| prior_mu := Some (array [F64.zero]);
     prior_sigma := Some (array [F64.inf]);
     fit_mu := Some (array [F64.of_Z 3]);
     fit_sigma := Some (array [F64.of_Z 12]);
     cov := Some {| ncols := 1; rows := [[F64.of_Z 144]] |};
     data_shape := Some [2; 3]%nat |}.

(** ** Notions used by the statements *)

(** A 2-D array is rectangular. *)
Definition rectangular (X : matrix) : Prop :=
  forall r, In r (rows X) -> length r = ncols X.

(** The rows of [X] the mask keeps, and the squared errors of those rows. *)
Definition masked (X : matrix) (mask : list bool) : matrix :=
  {| ncols := ncols X; rows := select mask (rows X) |}.

Definition weights (mask : list bool) (errors : list float) : list float :=
  map F64.square (select mask errors).

(** What [nan_to_num] makes of [mu / 0.0]. *)
Definition coerced_ratio (mu : float) : float :=
  match mu with
  | S754_zero _ | S754_nan => F64.zero
  | S754_infinity s | S754_finite s _ _ =>
      if s then F64.opp F64.max_float else F64.max_float
  end.

(** What is asked of libm: on a double [x >= 10.0], [log10 x] is a finite
    double and at least [1.0]. *)
Definition log10_above_ten (L : NumLib) : Prop :=
  forall x, F64.valid x = true -> F64.isfinite x = true ->
    F64.leb F64.ten x = true ->
    F64.valid (math_log10 x) = true /\ F64.isfinite (math_log10 x) = true
    /\ F64.leb F64.one (math_log10 x) = true.

(** The doubles of the integers [1 .. 308], the decimal exponents a
    double of at least [10.0] can have. *)
Definition small_log_ok (k : Z) : bool :=
  F64.valid (F64.of_Z k) && F64.isfinite (F64.of_Z k)
  && F64.leb F64.one (F64.of_Z k).

(** Case analysis on the next call whose result is inspected. *)
Ltac step_result :=
  match goal with
  | |- context [match ?r with Ok _ => _ | Raise _ => _ end] =>
      lazymatch r with
      | Ok _ => fail
      | Raise _ => fail
      | context [match _ with Ok _ => _ | Raise _ => _ end] => fail
      | context [match _ with Some _ => _ | None => _ end] => fail
      | _ => destruct r eqn:?; simpl
      end
  | |- context [match ?o with Some _ => _ | None => _ end] =>
      lazymatch o with
      | Some _ => fail
      | None => fail
      | _ => destruct o eqn:?; simpl
      end
  end.

(** A prior argument the validation stores: [None], a number, or a
    sequence of [width] entries. *)
Definition accepted_prior {G : GeneratorImpl} (p : pyobj) : Prop :=
  match p with
  | PyNone | PyScalar _ => True
  | PySeq s => length (items s) = width
  | PyOther => False
  end.

Definition is_str (a : pyname) : bool :=
  match a with PyStr _ => true | PyNotStr _ => false end.

(** A string without a brace. *)
Fixpoint brace_free (s : string) : bool :=
  match s with
  | EmptyString => true
  | String c s' => negb (Ascii.eqb c "{") && negb (Ascii.eqb c "}") && brace_free s'
  end.

(** A row of the table with its index in place: [w_] and the decimal
    digits of [idx], then what follows the symbol. *)
Definition numbered (idx : nat) (rest : string) : string :=
  "w_" ++ NilZero.string_of_uint (Nat.to_uint idx) ++ rest.

(** What follows the symbol in the row of a coefficient and a prior that
    both have the placeholder pair. *)
Definition placeholder_rest : string :=
  " & $0 \pm \infty$  & $0 \pm \infty$ \\\hline" ++ nl.

(** * Properties *)

(** ** Prior validation *)

Lemma scale_repeat (a x : float) (n : nat) :
  scale (repeat a n) x = repeat (F64.mul a x) n.
Proof.
  unfold scale. induction n as [|n IH]; simpl; [reflexivity | now rewrite IH].
Qed.

Lemma ones_times_inf (n : nat) : scale (np_ones n) F64.inf = repeat F64.inf n.
Proof. unfold np_ones. now rewrite scale_repeat. Qed.

Section PriorFacts.
Context {G : GeneratorImpl}.

(** C4: with [prior_mu=None] and [prior_sigma=None] the validation ends
    normally and leaves [prior_mu] the vector of [width] zeros and
    [prior_sigma] the vector of [width] positive infinities. *)
Theorem validate_priors_default (self : Generator) :
  exists self',
    _validate_priors PyNone PyNone self = (Ok tt, self')
    /\ prior_mu self' = Some (array (repeat F64.zero width))
    /\ prior_sigma self' = Some (array (repeat F64.inf width))
    /\ length (repeat F64.zero width) = width
    /\ length (repeat F64.inf width) = width.
Proof.
  eexists. unfold _validate_priors, bind, set_prior_mu, set_prior_sigma. simpl.
  rewrite ones_times_inf. repeat split; apply repeat_length.
Qed.

(** C2, what the code does: a [prior_mu] sequence whose length is not
    [width] passes the validation without an exception, and [prior_mu] is
    left as it was (unset, at construction). *)
Theorem validate_priors_wrong_length_silent
    (s : pyseq) (sigma0 : pyobj) (self : Generator) :
  length (items s) <> width ->
  sigma0 <> PyOther ->
  exists self',
    _validate_priors (PySeq s) sigma0 self = (Ok tt, self')
    /\ prior_mu self' = prior_mu self.
Proof.
  intros Hlen Hsig. apply Nat.eqb_neq in Hlen.
  unfold _validate_priors, bind. rewrite Hlen. unfold ret.
  destruct sigma0 as [ | x | t | ]; try congruence.
  - eexists; split; reflexivity.
  - eexists; split; reflexivity.
  - destruct (length (items t) =? width)%nat; eexists; split; reflexivity.
Qed.
End PriorFacts.

Lemma validate_priors_wrong_length_silent_witness :
  exists self',
    _validate_priors (G := Reference.constant 2)
      (PySeq {| kind := PyList; items := [F64.one] |}) PyNone blank = (Ok tt, self')
    /\ prior_mu self' = None.
Proof.
  apply (validate_priors_wrong_length_silent (G := Reference.constant 2)
           {| kind := PyList; items := [F64.one] |} (sigma0 := PyNone) blank).
  - simpl. lia.
  - discriminate.
Defined.

(** ** Significant figures *)

Section ReportFacts.
Context {L : NumLib}.

(** C6: an infinite or NaN mean or error gives the placeholder pair
    [("0", "\infty")] and no exception; a finite pair whose error equals
    zero is formatted with precision 0. *)
Theorem format_significant_figures_special (mean error : float) :
  (F64.isinf mean || F64.isinf error || F64.isnan mean || F64.isnan error = true ->
   format_significant_figures mean error = Ok ("0", "\infty"))
  /\ (F64.isfinite mean = true -> F64.isfinite error = true ->
      F64.eqb error F64.zero = true ->
      format_significant_figures mean error
      = Ok (format_fixed mean 0, format_fixed error 0)
      /\ py_format_float mean ".0f" = Ok (format_fixed mean 0)
      /\ py_format_float error ".0f" = Ok (format_fixed error 0)).
Proof.
  split.
  - intros H. unfold format_significant_figures. now rewrite H.
  - intros Hm He H0. unfold format_significant_figures. rewrite H0.
    replace (F64.isinf mean || F64.isinf error || F64.isnan mean || F64.isnan error)
      with false by (destruct mean, error; simpl in *; congruence).
    repeat split.
Qed.
End ReportFacts.

Lemma format_significant_figures_special_witness :
  format_significant_figures (L := Reference.numlib) F64.nan F64.one = Ok ("0", "\infty")
  /\ format_significant_figures (L := Reference.numlib) F64.one (S754_zero true)
     = Ok ("1", "-0").
Proof.
  split.
  - apply (proj1 (format_significant_figures_special (L := Reference.numlib)
                    F64.nan F64.one)).
    reflexivity.
  - apply (proj2 (format_significant_figures_special (L := Reference.numlib)
                    F64.one (S754_zero true))); reflexivity.
Defined.

(** ** Evaluation *)

Lemma np_prod_singleton (k : nat) : np_prod [k] = k.
Proof. unfold np_prod. simpl. lia. Qed.

Section EvaluateFacts.
Context {L : NumLib} {G : GeneratorImpl}.

Lemma dot_mv_length (X : matrix) (m v : list float) :
  dot_mv X m = Ok v -> length v = nrows X.
Proof.
  unfold dot_mv. destruct (ncols X =? length m)%nat; [|discriminate].
  intros H. injection H as <-. apply length_map.
Qed.

(** C7: on a fitted generator [evaluate] returns [X.dot(mu)] with the
    fitted [mu]; the result has the stored [data_shape] exactly when the
    number of rows of [X] is the number of elements of the fitted data,
    and is the flat vector of one entry per row otherwise. *)
Theorem evaluate_fitted_shape
    (self : Generator) (args : Inputs) (shp : list nat) (m : pyseq) :
  data_shape self = Some shp ->
  fit_mu self = Some m ->
  let X := design_matrix args in
  evaluate args self
  = (v <~ dot_mv X (items m) ;;
     Ok (if (nrows X =? np_prod shp)%nat then reshape v shp else flat v),
     self)
  /\ forall out, fst (evaluate args self) = Ok out ->
       dot_mv X (items m) = Ok (ravel out)
       /\ (shape out = shp <-> nrows X = np_prod shp)
       /\ (nrows X <> np_prod shp -> shape out = [nrows X]).
Proof.
  intros Hshape Hmu X.
  assert (E : evaluate args self
              = (v <~ dot_mv X (items m) ;;
                 Ok (if (nrows X =? np_prod shp)%nat then reshape v shp else flat v),
                 self)).
  { unfold evaluate, bind, mu, lift, ret. rewrite Hshape. fold X.
    destruct (nrows X =? np_prod shp)%nat; rewrite Hmu;
      destruct (dot_mv X (items m)); reflexivity. }
  split; [exact E|].
  intros out. rewrite E. simpl.
  destruct (dot_mv X (items m)) as [v|e] eqn:Hdot; simpl; [|discriminate].
  apply dot_mv_length in Hdot.
  destruct (nrows X =? np_prod shp)%nat eqn:Hrows; intros H; injection H as <-; simpl.
  - apply Nat.eqb_eq in Hrows. repeat split; auto. congruence.
  - apply Nat.eqb_neq in Hrows. rewrite Hdot. repeat split; auto.
    + intros <-. now rewrite np_prod_singleton in Hrows.
    + intros H. contradiction.
Qed.

(** C8: [mu] and [sigma] are the fitted vectors when there are any and the
    priors otherwise; on a generator that was never fitted [evaluate]
    returns the flat vector [X.dot(prior_mu)]. *)
Theorem mu_sigma_fall_back_to_prior (self : Generator) :
  (forall m, fit_mu self = Some m -> mu self = (Ok m, self))
  /\ (fit_mu self = None -> mu self = getattr "prior_mu" prior_mu self)
  /\ (forall s, fit_sigma self = Some s -> sigma self = (Ok s, self))
  /\ (fit_sigma self = None -> sigma self = getattr "prior_sigma" prior_sigma self)
  /\ (forall p, fit_mu self = None -> prior_mu self = Some p ->
        mu self = (Ok p, self))
  /\ (forall s, fit_sigma self = None -> prior_sigma self = Some s ->
        sigma self = (Ok s, self))
  /\ (forall args p, fit_mu self = None -> data_shape self = None ->
        prior_mu self = Some p ->
        evaluate args self
        = (v <~ dot_mv (design_matrix args) (items p) ;; Ok (flat v), self)).
Proof.
  unfold mu, sigma, getattr. repeat split.
  - now intros m ->.
  - now intros ->.
  - now intros s ->.
  - now intros ->.
  - now intros p -> ->.
  - now intros s -> ->.
  - intros args p Hfit Hshape Hprior.
    unfold evaluate, bind, mu, lift, ret, getattr.
    rewrite Hshape, Hfit, Hprior.
    destruct (dot_mv (design_matrix args) (items p)); reflexivity.
Qed.
End EvaluateFacts.

(** ** Arrays, entry by entry *)

Lemma nth_map_seq {A} (f : nat -> A) (n i : nat) (d : A) :
  (i < n)%nat -> nth i (map f (seq 0 n)) d = f i.
Proof.
  intros Hi. rewrite (nth_indep _ d (f 0%nat)) by now rewrite length_map, length_seq.
  rewrite map_nth. now rewrite seq_nth.
Qed.

Lemma length_zip_with {A B C} (f : A -> B -> C) (xs : list A) (ys : list B) :
  length (zip_with f xs ys) = Nat.min (length xs) (length ys).
Proof.
  revert ys. induction xs as [|x xs IH]; intros [|y ys]; simpl; auto.
Qed.

Lemma nth_zip_with {A B C} (f : A -> B -> C) (xs : list A) (ys : list B)
    (i : nat) (da : A) (db : B) (dc : C) :
  (i < length xs)%nat -> (i < length ys)%nat ->
  nth i (zip_with f xs ys) dc = f (nth i xs da) (nth i ys db).
Proof.
  revert ys i. induction xs as [|x xs IH]; intros [|y ys] [|i]; simpl; try lia; auto.
  intros Hx Hy. apply IH; lia.
Qed.

Lemma zip_with_map_l {A A' B C} (f : A' -> B -> C) (g : A -> A')
    (xs : list A) (ys : list B) :
  zip_with f (map g xs) ys = zip_with (fun x y => f (g x) y) xs ys.
Proof.
  revert ys. induction xs as [|x xs IH]; intros [|y ys]; simpl; auto.
  now rewrite IH.
Qed.

Lemma map_zip_with {A B C D} (g : C -> D) (f : A -> B -> C)
    (xs : list A) (ys : list B) :
  map g (zip_with f xs ys) = zip_with (fun x y => g (f x y)) xs ys.
Proof.
  revert ys. induction xs as [|x xs IH]; intros [|y ys]; simpl; auto.
  now rewrite IH.
Qed.

Lemma zip_with_ext_in {A B C} (f g : A -> B -> C) (xs : list A) (ys : list B) :
  (forall x y, In x xs -> f x y = g x y) -> zip_with f xs ys = zip_with g xs ys.
Proof.
  revert ys. induction xs as [|x xs IH]; intros [|y ys] H; simpl; auto.
  rewrite H by now left. rewrite IH; auto. intros; apply H; now right.
Qed.

Lemma select_incl {A} (mask : list bool) (xs : list A) (x : A) :
  In x (select mask xs) -> In x xs.
Proof.
  revert xs. induction mask as [|b mask IH]; intros [|y xs]; simpl; try tauto.
  destruct b; simpl; intros H; [destruct H as [H|H]|]; auto.
Qed.

Lemma np_diag_entry (v : list float) (i j : nat) :
  (i < length v)%nat -> (j < length v)%nat ->
  entry (np_diag v) i j = if (i =? j)%nat then nth i v F64.zero else F64.zero.
Proof.
  intros Hi Hj. unfold entry, np_diag. simpl.
  rewrite nth_map_seq by assumption. now rewrite nth_map_seq.
Qed.

Lemma np_diag_row_length (v : list float) (i : nat) :
  (i < length v)%nat -> length (nth i (rows (np_diag v)) []) = length v.
Proof.
  intros Hi. unfold np_diag. simpl. rewrite nth_map_seq by assumption.
  now rewrite length_map, length_seq.
Qed.

Lemma mat_add_entry (A B M : matrix) (i j : nat) :
  mat_add A B = Ok M ->
  (i < nrows A)%nat ->
  (j < length (nth i (rows A) []))%nat -> (j < length (nth i (rows B) []))%nat ->
  entry M i j = F64.add (entry A i j) (entry B i j).
Proof.
  unfold mat_add, entry, nrows.
  destruct ((length (rows A) =? length (rows B)) && (ncols A =? ncols B))%nat eqn:E;
    [|discriminate].
  apply andb_prop in E as [E _]. apply Nat.eqb_eq in E.
  intros H Hi HjA HjB. injection H as <-. simpl.
  rewrite (nth_zip_with _ _ _ [] [] []) by lia.
  now apply nth_zip_with.
Qed.

Section ProductFacts.
Context {L : NumLib}.

Lemma dot_tm_entry (X Y M : matrix) (i j : nat) :
  dot_tm X Y = Ok M -> (i < ncols X)%nat -> (j < ncols Y)%nat ->
  entry M i j = vdot (column X i) (column Y j)
  /\ length (nth i (rows M) []) = ncols Y.
Proof.
  unfold dot_tm, entry, columns.
  destruct (nrows X =? nrows Y)%nat; [|discriminate].
  intros H Hi Hj. injection H as <-. simpl.
  rewrite map_map, nth_map_seq by assumption.
  rewrite map_map, nth_map_seq by assumption.
  now rewrite length_map, length_seq.
Qed.

Lemma dot_tv_nth (X : matrix) (v b : list float) (i : nat) :
  dot_tv X v = Ok b -> (i < ncols X)%nat ->
  nth i b F64.zero = vdot (column X i) v /\ length b = ncols X.
Proof.
  unfold dot_tv, columns.
  destruct (nrows X =? length v)%nat; [|discriminate].
  intros H Hi. injection H as <-. rewrite map_map.
  rewrite nth_map_seq by assumption. now rewrite length_map, length_seq.
Qed.
End ProductFacts.

(** Column [j] of [X / e[:, None]] is column [j] of [X] divided entry by
    entry. *)
Lemma div_rows_column (X Xw : matrix) (e : list float) (j : nat) :
  rectangular X -> (j < ncols X)%nat ->
  div_rows X e = Ok Xw ->
  column Xw j = zip_with F64.div (column X j) e /\ ncols Xw = ncols X.
Proof.
  intros Hrect Hj. unfold div_rows, column.
  destruct (nrows X =? length e)%nat; [|discriminate].
  intros H. injection H as <-. simpl. split; [|reflexivity].
  rewrite map_zip_with, zip_with_map_l.
  apply zip_with_ext_in. intros r ei Hr.
  rewrite (nth_indep _ F64.zero (F64.div F64.zero ei))
    by (rewrite length_map, (Hrect r Hr); exact Hj).
  now rewrite (map_nth (fun x => F64.div x ei)).
Qed.

(** ** The fit *)

Section FitFacts.
Context {L : NumLib} {G : GeneratorImpl}.

(** The run of [_fit], step by step: where it can raise and what the
    instance holds at that point. *)
Lemma fit_run (data : ndarray) (errors : option ndarray)
    (mask : option boolarray) (args : Inputs) (self : Generator) :
  let X := design_matrix args in
  let errs := ravel (default_errors data errors) in
  _fit data errors mask args self =
  if negb (np_prod (shape data) =? nrows X)%nat
  then (Raise (ValueError ("Data must have shape " ++
                           NilZero.string_of_uint (Nat.to_uint (nrows X)))), self)
  else
    match default_mask data mask with
    | Raise e => (Raise e, self)
    | Ok mk =>
        let self1 := with_data_shape (shape data) self in
        match normal_matrix X (bravel mk) errs (prior_sigma self) with
        | Raise e => (Raise e, self1)
        | Ok A =>
            match linalg_inv A with
            | Raise e => (Raise e, self1)
            | Ok C =>
                let self2 := with_cov C self1 in
                match right_hand_side X (bravel mk) (ravel data) errs
                        (prior_mu self) (prior_sigma self) with
                | Raise e => (Raise e, self2)
                | Ok b =>
                    match linalg_solve A b with
                    | Raise e => (Raise e, self2)
                    | Ok m => (Ok (array m, array (map F64.sqrt (diagonal C))), self2)
                    end
                end
            end
        end
    end.
Proof.
  intros X errs. unfold _fit. fold X. fold errs.
  destruct (negb (np_prod (shape data) =? nrows X)%nat); [reflexivity|].
  unfold bind, lift, set_data_shape, set_cov, getattr, ret,
    normal_matrix, right_hand_side, attr, rbind.
  simpl.
  repeat step_result; try reflexivity; try congruence.
Qed.

Lemma nth_map_default {A} (f : A -> float) (xs : list A) (i : nat) (d : A) :
  (i < length xs)%nat -> nth i (map f xs) F64.zero = f (nth i xs d).
Proof.
  intros Hi. rewrite (nth_indep _ F64.zero (f d)) by now rewrite length_map.
  apply map_nth.
Qed.

Lemma masked_rectangular (X : matrix) (mask : list bool) :
  rectangular X -> rectangular (masked X mask).
Proof. intros H r Hr. apply H. eapply select_incl. exact Hr. Qed.

(** Entry [(i, j)] of the normal-equation matrix: the inner product of
    column [i] of [X[mask]] with column [j] divided by the squared errors,
    plus the prior's precision on the diagonal. *)
Lemma normal_matrix_entries (X : matrix) (mask : list bool)
    (errors : list float) (sigma : pyseq) (A : matrix) :
  rectangular X ->
  normal_matrix X mask errors (Some sigma) = Ok A ->
  length (items sigma) = ncols X
  /\ forall i j, (i < ncols X)%nat -> (j < ncols X)%nat ->
       entry A i j
       = F64.add (vdot (column (masked X mask) i)
                       (zip_with F64.div (column (masked X mask) j)
                                 (weights mask errors)))
                 (if (i =? j)%nat
                  then prior_precision (nth i (items sigma) F64.zero)
                  else F64.zero).
Proof.
  intros Hrect. unfold normal_matrix, index_rows, take_mask, rbind, attr,
    prior_diag, seq_square.
  destruct (length mask =? length (rows X))%nat; [|discriminate].
  destruct (length mask =? length errors)%nat; [|discriminate].
  fold (masked X mask). fold (weights mask errors).
  destruct (div_rows (masked X mask) (weights mask errors)) as [Xw|] eqn:Hdiv;
    [|discriminate].
  destruct (dot_tm (masked X mask) Xw) as [gram|] eqn:Hdot; [|discriminate].
  destruct (kind sigma); try discriminate. unfold rbind.
  intros Hadd.
  assert (Hrows : nrows gram = ncols X).
  { unfold dot_tm in Hdot. destruct (nrows (masked X mask) =? nrows Xw)%nat;
      [|discriminate].
    injection Hdot as <-. unfold nrows, columns. simpl.
    now rewrite !length_map, length_seq. }
  assert (Hlen : length (items sigma) = ncols X).
  { unfold mat_add in Hadd.
    destruct ((nrows gram =? nrows (np_diag (map (F64.div F64.one)
                (map F64.square (items sigma))))) && _)%nat eqn:E; [|discriminate].
    apply andb_prop in E as [E _]. apply Nat.eqb_eq in E.
    unfold nrows at 2 in E. simpl in E.
    rewrite !length_map, length_seq in E. lia. }
  split; [exact Hlen|].
  intros i j Hi Hj.
  destruct (@div_rows_column (masked X mask) Xw (weights mask errors) j
              (masked_rectangular mask Hrect) Hj Hdiv) as [Hcolj Hcol].
  destruct (@dot_tm_entry L (masked X mask) Xw gram i j Hdot) as [Hgram Hgl];
    [exact Hi | rewrite Hcol; exact Hj |].
  rewrite (@mat_add_entry _ _ A i j Hadd).
  - rewrite Hgram, np_diag_entry by (rewrite !length_map; lia).
    rewrite Hcolj.
    f_equal. destruct (i =? j)%nat; [|reflexivity].
    rewrite (nth_map_default _ _ F64.zero) by (rewrite length_map; lia).
    rewrite (nth_map_default _ _ F64.zero) by lia. reflexivity.
  - lia.
  - rewrite Hgl, Hcol. exact Hj.
  - rewrite np_diag_row_length; rewrite !length_map; lia.
Qed.

(** Entry [i] of the right-hand side: the inner product of column [i] of
    [X[mask]] with the data divided by the squared errors, plus the
    prior's term. *)
Lemma right_hand_side_entries (X : matrix) (mask : list bool)
    (data errors : list float) (mu0 sigma : pyseq) (b : list float) :
  right_hand_side X mask data errors (Some mu0) (Some sigma) = Ok b ->
  forall i, (i < ncols X)%nat ->
    nth i b F64.zero
    = F64.add (vdot (column (masked X mask) i)
                    (zip_with F64.div (select mask data) (weights mask errors)))
              (prior_term (nth i (items mu0) F64.zero)
                          (nth i (items sigma) F64.zero)).
Proof.
  unfold right_hand_side, index_rows, take_mask, rbind, attr, prior_rhs,
    seq_square, elementwise.
  destruct (length mask =? length (rows X))%nat; [|discriminate].
  destruct (length mask =? length errors)%nat; [|discriminate].
  destruct (length mask =? length data)%nat; [|discriminate].
  fold (masked X mask). fold (weights mask errors).
  destruct (length (select mask data) =? length (weights mask errors))%nat;
    [|discriminate].
  destruct (dot_tv (masked X mask) _) as [Xty|] eqn:Hdot; [|discriminate].
  destruct (kind sigma); try discriminate. unfold rbind.
  destruct (length (items mu0) =? length (map F64.square (items sigma)))%nat
    eqn:Hmu; [|discriminate].
  destruct (length Xty =? _)%nat eqn:Hb; [|discriminate].
  intros H i Hi. injection H as <-.
  apply Nat.eqb_eq in Hmu, Hb.
  rewrite length_map in Hmu.
  rewrite length_map, length_zip_with, length_map in Hb.
  destruct (@dot_tv_nth L (masked X mask) _ Xty i Hdot Hi) as [Hnth Hlen].
  simpl in Hlen.
  rewrite (nth_zip_with _ _ _ F64.zero F64.zero)
    by (rewrite ?length_map, ?length_zip_with, ?length_map; lia).
  rewrite Hnth. f_equal.
  rewrite (nth_map_default _ _ F64.zero)
    by (rewrite length_zip_with, length_map; lia).
  rewrite (nth_zip_with _ _ _ F64.zero F64.zero) by (rewrite ?length_map; lia).
  rewrite (nth_map_default _ _ F64.zero) by lia.
  reflexivity.
Qed.

(** C5: when the number of elements of [data] differs from the number of
    rows of the design matrix, [_fit] raises the shape [ValueError] at
    once: nothing was computed and the instance is as it was. *)
Theorem fit_shape_mismatch (data : ndarray) (errors : option ndarray)
    (mask : option boolarray) (args : Inputs) (self : Generator) :
  np_prod (shape data) <> nrows (design_matrix args) ->
  _fit data errors mask args self
  = (Raise (ValueError ("Data must have shape " ++
              NilZero.string_of_uint (Nat.to_uint (nrows (design_matrix args))))),
     self).
Proof.
  intros H. apply Nat.eqb_neq in H. unfold _fit. now rewrite H.
Qed.

(** C1, as the code has it: when the element count of [data] is the row
    count of [X], the normal-equation matrix [A] is, entry by entry, the
    weighted Gram matrix of [X[mask]] plus the prior's precision on the
    diagonal, and [b] the weighted projection of the data plus the prior's
    term.  When the inversion and the solve succeed, [_fit] stores
    [cov = inv(A)] and returns the solution of [A . fit_mu = b] given by
    [solve] together with the square roots of the diagonal of [cov]; when
    the inversion or the solve raises, [_fit] raises that exception and
    returns nothing. *)
Theorem fit_normal_equations (data : ndarray) (errors : option ndarray)
    (mask : option boolarray) (args : Inputs) (self : Generator)
    (mk : boolarray) (A : matrix) :
  let X := design_matrix args in
  let errs := ravel (default_errors data errors) in
  np_prod (shape data) = nrows X ->
  default_mask data mask = Ok mk ->
  normal_matrix X (bravel mk) errs (prior_sigma self) = Ok A ->
  (forall C b m,
     linalg_inv A = Ok C ->
     right_hand_side X (bravel mk) (ravel data) errs (prior_mu self) (prior_sigma self)
     = Ok b ->
     linalg_solve A b = Ok m ->
     _fit data errors mask args self
     = (Ok (array m, array (map F64.sqrt (diagonal C))),
        with_cov C (with_data_shape (shape data) self)))
  /\ (forall e, linalg_inv A = Raise e ->
        _fit data errors mask args self
        = (Raise e, with_data_shape (shape data) self))
  /\ (forall C b e,
        linalg_inv A = Ok C ->
        right_hand_side X (bravel mk) (ravel data) errs (prior_mu self)
          (prior_sigma self) = Ok b ->
        linalg_solve A b = Raise e ->
        _fit data errors mask args self
        = (Raise e, with_cov C (with_data_shape (shape data) self)))
  /\ (rectangular X ->
      forall sigma, prior_sigma self = Some sigma ->
      forall i j, (i < ncols X)%nat -> (j < ncols X)%nat ->
        entry A i j
        = F64.add (vdot (column (masked X (bravel mk)) i)
                        (zip_with F64.div (column (masked X (bravel mk)) j)
                                  (weights (bravel mk) errs)))
                  (if (i =? j)%nat
                   then prior_precision (nth i (items sigma) F64.zero)
                   else F64.zero))
  /\ (forall b mu0 sigma,
        right_hand_side X (bravel mk) (ravel data) errs (prior_mu self)
          (prior_sigma self) = Ok b ->
        prior_mu self = Some mu0 -> prior_sigma self = Some sigma ->
        forall i, (i < ncols X)%nat ->
          nth i b F64.zero
          = F64.add (vdot (column (masked X (bravel mk)) i)
                          (zip_with F64.div (select (bravel mk) (ravel data))
                                    (weights (bravel mk) errs)))
                    (prior_term (nth i (items mu0) F64.zero)
                                (nth i (items sigma) F64.zero))).
Proof.
  intros X errs Hshape Hmask HA.
  pose proof (fit_run data errors mask args self) as E.
  cbv zeta in E. fold X in E. fold errs in E.
  apply Nat.eqb_eq in Hshape. rewrite Hshape, Hmask, HA in E. simpl in E.
  split; [|split; [|split; [|split]]].
  - intros C b m HC Hb Hm. now rewrite E, HC, Hb, Hm.
  - intros e He. now rewrite E, He.
  - intros C b e HC Hb He. now rewrite E, HC, Hb, He.
  - intros Hrect sigma Hsigma i j Hi Hj. rewrite Hsigma in HA.
    eapply normal_matrix_entries; eassumption.
  - intros b mu0 sigma Hb Hmu Hsigma i Hi. rewrite Hmu, Hsigma in Hb.
    eapply right_hand_side_entries; eassumption.
Qed.

(** Every return of [_fit] is of that form. *)
Lemma fit_returns (data : ndarray) (errors : option ndarray)
    (mask : option boolarray) (args : Inputs) (self self' : Generator)
    (r : pyseq * pyseq) :
  let X := design_matrix args in
  let errs := ravel (default_errors data errors) in
  _fit data errors mask args self = (Ok r, self') ->
  exists mk A C b m,
    np_prod (shape data) = nrows X
    /\ default_mask data mask = Ok mk
    /\ normal_matrix X (bravel mk) errs (prior_sigma self) = Ok A
    /\ linalg_inv A = Ok C
    /\ right_hand_side X (bravel mk) (ravel data) errs
         (prior_mu self) (prior_sigma self) = Ok b
    /\ linalg_solve A b = Ok m
    /\ r = (array m, array (map F64.sqrt (diagonal C)))
    /\ self' = with_cov C (with_data_shape (shape data) self).
Proof.
  intros X errs. pose proof (fit_run data errors mask args self) as E.
  cbv zeta in E. fold X in E. fold errs in E. rewrite E. clear E.
  destruct (np_prod (shape data) =? nrows X)%nat eqn:Hshape; simpl;
    [|discriminate].
  apply Nat.eqb_eq in Hshape.
  destruct (default_mask data mask) as [mk|]; [|discriminate].
  destruct (normal_matrix _ _ _ _) as [A|] eqn:HA; [|discriminate].
  destruct (linalg_inv A) as [C|] eqn:HC; [|discriminate].
  destruct (right_hand_side _ _ _ _ _ _) as [b|] eqn:Hb; [|discriminate].
  destruct (linalg_solve A b) as [m|] eqn:Hm; [|discriminate].
  intros H. injection H as <- <-.
  exists mk, A, C, b, m. repeat split; auto.
Qed.

(** C3, as the code has it: a call of [_fit] that raises leaves the
    priors, [fit_mu] and [fit_sigma] as they were, and the whole instance
    when the shape check or the default mask fails; [data_shape] is
    assigned before the normal equations are formed and [cov] as soon as
    the inversion returns.  So a call that raises after the mask finds
    [data_shape] overwritten; [cov] is as it was when the normal matrix or
    its inversion raised, and is the new inverse whenever the inversion
    returned. *)
Theorem fit_failure_state (data : ndarray) (errors : option ndarray)
    (mask : option boolarray) (args : Inputs) (self self' : Generator)
    (e : exn) :
  let X := design_matrix args in
  let errs := ravel (default_errors data errors) in
  _fit data errors mask args self = (Raise e, self') ->
  prior_mu self' = prior_mu self /\ prior_sigma self' = prior_sigma self
  /\ fit_mu self' = fit_mu self /\ fit_sigma self' = fit_sigma self
  /\ (np_prod (shape data) <> nrows X -> self' = self)
  /\ (forall e', default_mask data mask = Raise e' -> self' = self)
  /\ (forall mk, np_prod (shape data) = nrows X -> default_mask data mask = Ok mk ->
        data_shape self' = Some (shape data)
        /\ (forall e', normal_matrix X (bravel mk) errs (prior_sigma self) = Raise e' ->
              e' = e /\ cov self' = cov self)
        /\ (forall A, normal_matrix X (bravel mk) errs (prior_sigma self) = Ok A ->
              (forall e', linalg_inv A = Raise e' -> e' = e /\ cov self' = cov self)
              /\ (forall C, linalg_inv A = Ok C -> cov self' = Some C))).
Proof.
  intros X errs. pose proof (fit_run data errors mask args self) as E.
  cbv zeta in E. fold X in E. fold errs in E. rewrite E. clear E.
  destruct (np_prod (shape data) =? nrows X)%nat eqn:Hshape; simpl.
  - apply Nat.eqb_eq in Hshape.
    destruct (default_mask data mask) as [mk|e0].
    + destruct (normal_matrix _ _ _ _) as [A|e1] eqn:HA.
      * destruct (linalg_inv A) as [C|e2] eqn:HC.
        -- assert (Hlate : forall e4,
                     data_shape (with_cov C (with_data_shape (shape data) self))
                     = Some (shape data)
                     /\ (forall e', Ok A = Raise e' ->
                           e' = e4
                           /\ cov (with_cov C (with_data_shape (shape data) self))
                              = cov self)
                     /\ (forall A', Ok A = Ok A' ->
                           (forall e', linalg_inv A' = Raise e' ->
                              e' = e4
                              /\ cov (with_cov C (with_data_shape (shape data) self))
                                 = cov self)
                           /\ (forall C', linalg_inv A' = Ok C' ->
                                 cov (with_cov C (with_data_shape (shape data) self))
                                 = Some C'))).
           { intros e4. split; [reflexivity|]. split; [discriminate|].
             intros A' HA'. injection HA' as <-. split.
             - intros e' He'. congruence.
             - intros C' HC'. simpl. congruence. }
           destruct (right_hand_side _ _ _ _ _ _) as [b|e3].
           ++ destruct (linalg_solve A b) as [m|e4]; [discriminate|].
              intros Hrun. injection Hrun as <- <-.
              do 4 (split; [reflexivity|]). split; [intros; contradiction|].
              split; [discriminate|].
              intros mk' _ Hmk. injection Hmk as <-. rewrite HA. apply Hlate.
           ++ intros Hrun. injection Hrun as <- <-.
              do 4 (split; [reflexivity|]). split; [intros; contradiction|].
              split; [discriminate|].
              intros mk' _ Hmk. injection Hmk as <-. rewrite HA. apply Hlate.
        -- intros Hrun. injection Hrun as <- <-.
           do 4 (split; [reflexivity|]). split; [intros; contradiction|].
           split; [discriminate|].
           intros mk' _ Hmk. injection Hmk as <-. rewrite HA.
           split; [reflexivity|]. split; [discriminate|].
           intros A' HA'. injection HA' as <-. split.
           ++ intros e' He'. split; [congruence | reflexivity].
           ++ intros C' HC'. congruence.
      * intros Hrun. injection Hrun as <- <-.
        do 4 (split; [reflexivity|]). split; [intros; contradiction|].
        split; [discriminate|].
        intros mk' _ Hmk. injection Hmk as <-. rewrite HA.
        split; [reflexivity|]. split.
        -- intros e' He'. split; [congruence | reflexivity].
        -- discriminate.
    + intros Hrun. injection Hrun as <- <-.
      do 4 (split; [reflexivity|]). split; [reflexivity|].
      split; [reflexivity|].
      intros mk' _ Hmk. discriminate Hmk.
  - apply Nat.eqb_neq in Hshape.
    intros Hrun. injection Hrun as <- <-.
    do 4 (split; [reflexivity|]). split; [reflexivity|].
    split; [reflexivity|].
    intros mk Heq. contradiction.
Qed.
End FitFacts.

(** *** The fit on concrete inputs *)

Lemma fit_shape_mismatch_witness :
  _fit (L := Reference.numlib) (G := Reference.constant 1)
    (Reference.vector [1; 2; 3; 4; 5]%Z) None None 4%nat (Reference.unfitted 1)
  = (Raise (ValueError "Data must have shape 4"), Reference.unfitted 1).
Proof.
  apply (@fit_shape_mismatch Reference.numlib (Reference.constant 1)).
  vm_compute. discriminate.
Defined.

(** Five points on a column of ones, unit errors, flat prior: the fitted
    mean is their average, [3.0], and the variance is [1/5].  One point on
    the design matrix [[0.0]]: the inversion raises and so does the fit. *)
Lemma fit_normal_equations_witness :
  _fit (L := Reference.numlib) (G := Reference.constant 1)
    (Reference.vector [1; 2; 3; 4; 5]%Z) None None 5%nat (Reference.unfitted 1)
  = (Ok (array [F64.of_Z 3],
         array [F64.sqrt (F64.div F64.one (F64.of_Z 5))]),
     with_cov {| ncols := 1; rows := [[F64.div F64.one (F64.of_Z 5)]] |}
       (with_data_shape [5%nat] (Reference.unfitted 1)))
  /\ _fit (L := Reference.numlib) (G := Reference.tabulated 1)
       (Reference.vector [1]%Z) None None [[F64.zero]] (Reference.unfitted 1)
     = (Raise LinAlgError, with_data_shape [1%nat] (Reference.unfitted 1)).
Proof.
  split.
  - refine (proj1 (@fit_normal_equations Reference.numlib (Reference.constant 1)
                     (Reference.vector [1; 2; 3; 4; 5]%Z) None None 5%nat
                     (Reference.unfitted 1)
                     {| bshape := [5%nat]; bravel := repeat true 5 |}
                     {| ncols := 1; rows := [[F64.of_Z 5]] |} _ _ _)
                  {| ncols := 1; rows := [[F64.div F64.one (F64.of_Z 5)]] |}
                  [F64.of_Z 15] [F64.of_Z 3] _ _ _);
      vm_compute; reflexivity.
  - refine (proj1 (proj2 (@fit_normal_equations Reference.numlib
                            (Reference.tabulated 1)
                            (Reference.vector [1]%Z) None None [[F64.zero]]
                            (Reference.unfitted 1)
                            {| bshape := [1%nat]; bravel := [true] |}
                            {| ncols := 1; rows := [[F64.zero]] |} _ _ _))
                  LinAlgError _);
      vm_compute; reflexivity.
Defined.

(** C1, counterexample: the element count matches the row count, but the
    design matrix is the single entry [0.0] and the prior is flat, so the
    normal-equation matrix is [[0.0]]: the inversion raises and no
    posterior mean is returned. *)
Lemma fit_singular_raises :
  np_prod (shape (Reference.vector [1]%Z))
  = nrows (design_matrix (GeneratorImpl := Reference.tabulated 1) [[F64.zero]])
  /\ normal_matrix (L := Reference.numlib) {| ncols := 1; rows := [[F64.zero]] |}
       [true] [F64.one] (Some (array [F64.inf]))
     = Ok {| ncols := 1; rows := [[F64.zero]] |}
  /\ fst (_fit (L := Reference.numlib) (G := Reference.tabulated 1)
            (Reference.vector [1]%Z) None None [[F64.zero]] (Reference.unfitted 1))
     = Raise LinAlgError.
Proof. repeat split. Qed.

(** C3, counterexample: the same failing call has already stored
    [data_shape] when the inversion raises. *)
Lemma fit_failure_overwrites_data_shape :
  exists self',
    _fit (L := Reference.numlib) (G := Reference.tabulated 1)
      (Reference.vector [1]%Z) None None [[F64.zero]] (Reference.unfitted 1)
    = (Raise LinAlgError, self')
    /\ data_shape (Reference.unfitted 1) = None
    /\ data_shape self' = Some [1%nat]
    /\ self' <> Reference.unfitted 1.
Proof.
  eexists. split; [vm_compute; reflexivity|].
  split; [reflexivity|]. split; [reflexivity|]. discriminate.
Qed.

(** The failing call above: [data_shape] is stored and [cov] is as it
    was.  A call on a generator whose [prior_mu] was never set: the
    inversion has returned when the right-hand side raises, and [cov] is
    the new inverse. *)
Lemma fit_failure_state_witness :
  (fit_mu (with_data_shape [1%nat] (Reference.unfitted 1)) = None
   /\ data_shape (with_data_shape [1%nat] (Reference.unfitted 1)) = Some [1%nat]
   /\ cov (with_data_shape [1%nat] (Reference.unfitted 1)) = None)
  /\ (_fit (L := Reference.numlib) (G := Reference.constant 1)
        (Reference.vector [1]%Z) None None 1%nat
        (with_prior_sigma (array [F64.inf]) blank)
      = (Raise (AttributeError "prior_mu"),
         with_cov {| ncols := 1; rows := [[F64.one]] |}
           (with_data_shape [1%nat] (with_prior_sigma (array [F64.inf]) blank)))
      /\ data_shape (with_cov {| ncols := 1; rows := [[F64.one]] |}
           (with_data_shape [1%nat] (with_prior_sigma (array [F64.inf]) blank)))
         = Some [1%nat]
      /\ cov (with_cov {| ncols := 1; rows := [[F64.one]] |}
           (with_data_shape [1%nat] (with_prior_sigma (array [F64.inf]) blank)))
         = Some {| ncols := 1; rows := [[F64.one]] |}).
Proof.
  split.
  - pose proof (@fit_failure_state Reference.numlib (Reference.tabulated 1)
                  (Reference.vector [1]%Z) None None [[F64.zero]]
                  (Reference.unfitted 1)
                  (with_data_shape [1%nat] (Reference.unfitted 1)) LinAlgError
                  eq_refl) as (_ & _ & Hmu & _ & _ & _ & Hrun).
    destruct (Hrun {| bshape := [1%nat]; bravel := [true] |} eq_refl eq_refl)
      as (Hshape & _ & Hcov).
    split; [exact Hmu|]. split; [exact Hshape|].
    exact (proj2 (proj1 (Hcov {| ncols := 1; rows := [[F64.zero]] |} eq_refl)
                    LinAlgError eq_refl)).
  - split; [reflexivity|].
    pose proof (@fit_failure_state Reference.numlib (Reference.constant 1)
                  (Reference.vector [1]%Z) None None 1%nat
                  (with_prior_sigma (array [F64.inf]) blank)
                  (with_cov {| ncols := 1; rows := [[F64.one]] |}
                     (with_data_shape [1%nat]
                        (with_prior_sigma (array [F64.inf]) blank)))
                  (AttributeError "prior_mu")
                  eq_refl) as (_ & _ & _ & _ & _ & _ & Hrun).
    destruct (Hrun {| bshape := [1%nat]; bravel := [true] |} eq_refl eq_refl)
      as (Hshape & _ & Hcov).
    split; [exact Hshape|].
    exact (proj2 (Hcov {| ncols := 1; rows := [[F64.one]] |} eq_refl)
             {| ncols := 1; rows := [[F64.one]] |} eq_refl).
Defined.

(** *** Evaluation on concrete inputs *)

Lemma evaluate_fitted_shape_witness :
  evaluate (L := Reference.numlib) (G := Reference.constant 1) 6%nat Reference.fitted
  = (Ok {| shape := [2; 3]%nat; ravel := repeat (F64.of_Z 3) 6 |}, Reference.fitted)
  /\ evaluate (L := Reference.numlib) (G := Reference.constant 1) 4%nat Reference.fitted
     = (Ok {| shape := [4]%nat; ravel := repeat (F64.of_Z 3) 4 |}, Reference.fitted).
Proof.
  split.
  - exact (proj1 (@evaluate_fitted_shape Reference.numlib (Reference.constant 1)
                    Reference.fitted 6%nat [2; 3]%nat (array [F64.of_Z 3])
                    eq_refl eq_refl)).
  - exact (proj1 (@evaluate_fitted_shape Reference.numlib (Reference.constant 1)
                    Reference.fitted 4%nat [2; 3]%nat (array [F64.of_Z 3])
                    eq_refl eq_refl)).
Defined.

Lemma mu_sigma_fall_back_to_prior_witness :
  mu (Reference.unfitted 1) = (Ok (array [F64.zero]), Reference.unfitted 1)
  /\ sigma (Reference.unfitted 1) = (Ok (array [F64.inf]), Reference.unfitted 1)
  /\ mu Reference.fitted = (Ok (array [F64.of_Z 3]), Reference.fitted)
  /\ evaluate (L := Reference.numlib) (G := Reference.constant 1) 3%nat
       (Reference.unfitted 1)
     = (Ok {| shape := [3]%nat; ravel := repeat F64.zero 3 |}, Reference.unfitted 1).
Proof.
  destruct (@mu_sigma_fall_back_to_prior Reference.numlib (Reference.constant 1)
              (Reference.unfitted 1)) as (_ & _ & _ & _ & Hmu & Hsigma & Heval).
  destruct (@mu_sigma_fall_back_to_prior Reference.numlib (Reference.constant 1)
              Reference.fitted) as (Hfit & _).
  split; [exact (Hmu _ eq_refl eq_refl)|].
  split; [exact (Hsigma _ eq_refl eq_refl)|].
  split; [exact (Hfit _ eq_refl)|].
  exact (Heval 3%nat _ eq_refl eq_refl eq_refl).
Defined.

(** ** The prior's term of the right-hand side *)

Lemma prior_term_inf_sigma (mu sigma : float) :
  F64.isinf sigma = true -> F64.is_zero (prior_term mu sigma) = true.
Proof.
  destruct sigma as [s|s| |s m e]; try discriminate. intros _.
  destruct s, mu as [t|t| |t n k]; try destruct t; reflexivity.
Qed.

Lemma prior_term_zero_sigma (mu sigma : float) :
  F64.is_zero sigma = true ->
  prior_term mu sigma = coerced_ratio mu
  /\ F64.isfinite (prior_term mu sigma) = true
  /\ prior_precision sigma = F64.inf.
Proof.
  destruct sigma as [s|s| |s m e]; try discriminate. intros _.
  destruct s, mu as [t|t| |t n k]; try destruct t; repeat split.
Qed.

Lemma prior_rhs_nth (mu0 sigma : pyseq) (pb : list float) (i : nat) :
  prior_rhs mu0 sigma = Ok pb -> (i < length pb)%nat ->
  nth i pb F64.zero
  = prior_term (nth i (items mu0) F64.zero) (nth i (items sigma) F64.zero).
Proof.
  unfold prior_rhs, seq_square, elementwise, rbind.
  destruct (kind sigma); try discriminate.
  destruct (length (items mu0) =? length (map F64.square (items sigma)))%nat eqn:E;
    [|discriminate].
  apply Nat.eqb_eq in E. rewrite length_map in E.
  intros H. injection H as <-.
  rewrite length_map, length_zip_with, length_map. intros Hi.
  rewrite (@nth_map_default float _ _ _ F64.zero)
    by (rewrite length_zip_with, length_map; lia).
  rewrite (nth_zip_with _ _ _ F64.zero F64.zero) by (rewrite ?length_map; lia).
  rewrite (@nth_map_default float _ _ _ F64.zero) by lia.
  reflexivity.
Qed.

(** C9, as the code has it: an entry of [nan_to_num(prior_mu /
    prior_sigma ** 2)] is a zero wherever [prior_sigma] is infinite; where
    [prior_sigma] is zero the ratio is coerced too, a NaN to [0.0] and an
    infinity to the largest finite float of its sign, while the precision
    [1 / prior_sigma ** 2] is left infinite. *)
Theorem prior_term_coercion (mu0 sigma : pyseq) (pb : list float) (i : nat) :
  prior_rhs mu0 sigma = Ok pb -> (i < length pb)%nat ->
  let m := nth i (items mu0) F64.zero in
  let s := nth i (items sigma) F64.zero in
  let t := nth i pb F64.zero in
  t = F64.nan_to_num (F64.div m (F64.square s))
  /\ (F64.isinf s = true -> F64.is_zero t = true)
  /\ (F64.is_zero s = true ->
      t = coerced_ratio m /\ F64.isfinite t = true
      /\ F64.div F64.one (F64.square s) = F64.inf).
Proof.
  intros H Hi m s t. unfold t. rewrite (prior_rhs_nth _ _ H Hi). fold m s.
  split; [reflexivity|]. split.
  - apply prior_term_inf_sigma.
  - apply prior_term_zero_sigma.
Qed.

Lemma prior_term_coercion_witness :
  nth 0 [F64.zero] F64.zero = F64.nan_to_num (F64.div F64.one (F64.square F64.inf))
  /\ nth 0 [F64.max_float] F64.zero = coerced_ratio F64.one.
Proof.
  split.
  - exact (proj1 (@prior_term_coercion (array [F64.one]) (array [F64.inf])
                    [F64.zero] 0 eq_refl (Nat.lt_0_succ 0))).
  - exact (proj1 (proj2 (proj2 (@prior_term_coercion (array [F64.one])
                    (array [F64.zero]) [F64.max_float] 0 eq_refl (Nat.lt_0_succ 0)))
                    eq_refl)).
Defined.

(** C9, counterexample: with [prior_mu = 1.0] and [prior_sigma = 0.0] the
    ratio is [+inf], and with [prior_mu = 0.0] it is NaN; what reaches the
    right-hand side is the finite [max_float], respectively [0.0]. *)
Lemma prior_term_zero_sigma_coerced :
  F64.div F64.one (F64.square F64.zero) = F64.inf
  /\ prior_rhs (array [F64.one]) (array [F64.zero]) = Ok [F64.max_float]
  /\ F64.isfinite F64.max_float = true
  /\ F64.div F64.zero (F64.square F64.zero) = F64.nan
  /\ prior_rhs (array [F64.zero]) (array [F64.zero]) = Ok [F64.zero]
  /\ right_hand_side (L := Reference.numlib) {| ncols := 1; rows := [[F64.one]] |}
       [true] [F64.one] [F64.one] (Some (array [F64.one])) (Some (array [F64.zero]))
     = Ok [F64.max_float].
Proof. repeat split. Qed.

(** ** Errors of two digits and more *)

Section LargeErrors.
Local Open Scope Z_scope.

Lemma digits2_pos_bounds (m : positive) :
2 ^ (Zpos (digits2_pos m) - 1) <= Zpos m < 2 ^ Zpos (digits2_pos m).
Proof.
induction m as [m IH|m IH|]; simpl digits2_pos.
- rewrite Pos2Z.inj_succ.
  replace (Z.succ (Zpos (digits2_pos m)) - 1) with (Z.succ (Zpos (digits2_pos m) - 1)) by lia.
  rewrite !Z.pow_succ_r by lia. lia.
- rewrite Pos2Z.inj_succ.
  replace (Z.succ (Zpos (digits2_pos m)) - 1) with (Z.succ (Zpos (digits2_pos m) - 1)) by lia.
  rewrite !Z.pow_succ_r by lia. lia.
- simpl. lia.
Qed.

(** A valid finite float has a mantissa below [2^53] and an exponent at most 971; above
  the smallest exponent it is normal. *)
Lemma valid_finite (s : bool) (m : positive) (e : Z) :
F64.valid (S754_finite s m e) = true ->
Zpos m < 2 ^ 53 /\ -1074 <= e <= 971 /\ (-1074 < e -> 2 ^ 52 <= Zpos m).
Proof.
unfold F64.valid, valid_binary, bounded, canonical_mantissa, fexp, emin,
  F64.prec, F64.emax.
intros H. apply andb_prop in H as [Hc He].
apply Z.eqb_eq in Hc. apply Z.leb_le in He.
pose proof (digits2_pos_bounds m) as [Hlo Hhi].
assert (Hd : Zpos (digits2_pos m) <= 53) by lia.
split; [|split].
- eapply Z.lt_le_trans; [exact Hhi|]. apply Z.pow_le_mono_r; lia.
- lia.
- intros Hn. assert (Hd' : Zpos (digits2_pos m) = 53) by lia.
  rewrite Hd' in Hlo. exact Hlo.
Qed.

(** [a <= x] for a normal positive [a = ma * 2^ea] and a valid finite [x]. *)
Lemma leb_normal (ma : positive) (ea : Z) (x : float) :
2 ^ 52 <= Zpos ma -> -1074 <= ea ->
F64.leb (S754_finite false ma ea) x = true ->
F64.isfinite x = true -> F64.valid x = true ->
exists m e, x = S754_finite false m e /\ 2 ^ 52 <= Zpos m < 2 ^ 53 /\ e <= 971
            /\ (ea < e \/ (ea = e /\ Zpos ma <= Zpos m)).
Proof.
intros Hma Hea Hle Hfin Hval.
unfold F64.leb, SFleb, SFcompare in Hle.
destruct x as [s|s| |s m e]; try discriminate.
destruct s; [discriminate|].
  destruct (@valid_finite _ _ _ Hval) as (Hm & He & Hnorm).
  exists m, e.
  destruct (ea ?= e) eqn:Hcmp.
  + apply Z.compare_eq in Hcmp. subst e.
    assert (Hpos : (ma <= m)%positive).
    { unfold Pos.le, Pos.compare. destruct (Pos.compare_cont Eq ma m); congruence. }
    repeat split; try lia.
  + rewrite Z.compare_lt_iff in Hcmp. repeat split; try lia.
  + discriminate.
Qed.

Lemma py_floor_ge_one (x : float) :
F64.valid x = true -> F64.isfinite x = true -> F64.leb F64.one x = true ->
exists k, py_floor x = Ok k /\ 1 <= k.
Proof.
intros Hval Hfin Hle.
destruct (@leb_normal 4503599627370496 (-52) x) as (m & e & -> & Hm & He & Hcase);
  try assumption; try lia.
simpl. eexists. split; [reflexivity|].
destruct (Z.le_gt_cases 0 e) as [Hpos|Hneg].
- rewrite Z.shiftl_mul_pow2 by assumption.
  assert (0 < 2 ^ e) by (apply Z.pow_pos_nonneg; lia). nia.
- rewrite Z.shiftl_div_pow2 by lia.
  apply Z.div_le_lower_bound; [apply Z.pow_pos_nonneg; lia|].
  assert (2 ^ (- e) <= 2 ^ 52) by (apply Z.pow_le_mono_r; lia). lia.
Qed.

Lemma py_format_float_negative (x : float) (p : positive) :
py_format_float x ("." ++ py_str (Zneg p) ++ "f")%string
= Raise (ValueError "Format specifier missing precision"%string).
Proof. reflexivity. Qed.

(** C10: for a finite mean and a finite error of absolute value at least
  10, with a libm whose [log10] is at least [1.0] from [10.0] on, the
  number of decimals [-floor(log10(|error|))] is negative and the
  formatting raises [ValueError]: no pair is returned. *)
Theorem format_significant_figures_large_error
  (L : NumLib) (mean error : float) :
log10_above_ten L ->
F64.isfinite mean = true -> F64.isfinite error = true ->
F64.valid error = true ->
F64.leb F64.ten (F64.abs error) = true ->
(exists k, py_floor (math_log10 (F64.abs error)) = Ok k /\ (- k < 0)%Z)
/\ format_significant_figures mean error
   = Raise (ValueError "Format specifier missing precision"%string).
Proof.
intros Hlib Hmean Herr Hval Hten.
assert (Habs : F64.valid (F64.abs error) = true /\ F64.isfinite (F64.abs error) = true)
  by (destruct error; auto).
destruct Habs as [Hv Hf].
destruct (Hlib _ Hv Hf Hten) as (Hlv & Hlf & Hle).
destruct (@py_floor_ge_one _ Hlv Hlf Hle) as (k & Hk & Hk1).
split; [exists k; split; [exact Hk | lia]|].
unfold format_significant_figures.
replace (F64.isinf mean || F64.isinf error || F64.isnan mean || F64.isnan error)
  with false by (destruct mean, error; simpl in *; congruence).
replace (F64.eqb error F64.zero) with false
  by (destruct error as [s|s| |s m e]; try discriminate; destruct s; reflexivity).
rewrite Hk. unfold rbind.
destruct k as [|p|p]; try lia.
change (- Z.pos p)%Z with (Z.neg p).
now rewrite py_format_float_negative.
Qed.

Lemma ilog10_succ (fuel : nat) (n : Z) :
Reference.ilog10 (S fuel) n
= if n <? 10 then 0 else 1 + Reference.ilog10 fuel (n / 10).
Proof. reflexivity. Qed.

Lemma ilog10_nonneg (fuel : nat) (n : Z) : 0 <= Reference.ilog10 fuel n.
Proof.
revert n. induction fuel as [|fuel IH]; intros n; [simpl; lia|].
rewrite ilog10_succ.
destruct (n <? 10); [lia|]. specialize (IH (n / 10)). lia.
Qed.

Lemma ilog10_upper (fuel : nat) (j n : Z) :
0 <= j -> n < 10 ^ (j + 1) -> Reference.ilog10 fuel n <= j.
Proof.
revert j n. induction fuel as [|fuel IH]; intros j n Hj Hn; [simpl; lia|].
rewrite ilog10_succ.
destruct (n <? 10) eqn:E; [lia|]. apply Z.ltb_ge in E.
assert (Hj1 : 1 <= j).
{ destruct (Z.eq_dec j 0) as [->|]; [simpl in Hn; lia | lia]. }
assert (Reference.ilog10 fuel (n / 10) <= j - 1); [|lia].
apply IH; [lia|].
replace (j - 1 + 1) with j by lia.
apply Z.div_lt_upper_bound; [lia|].
replace (j + 1) with (Z.succ j) in Hn by lia.
rewrite Z.pow_succ_r in Hn by lia. exact Hn.
Qed.

Lemma ilog10_Z_bounds (n : Z) :
10 <= n < 10 ^ 309 -> 1 <= Reference.ilog10_Z n <= 308.
Proof.
intros [Hlo Hhi]. unfold Reference.ilog10_Z. split.
- rewrite ilog10_succ.
  replace (n <? 10) with false by (symmetry; apply Z.ltb_ge; lia).
  pose proof (ilog10_nonneg (Z.to_nat (Z.log2 n)) (n / 10)). lia.
- apply ilog10_upper; [lia | exact Hhi].
Qed.

Lemma of_Z_small (k : Z) :
1 <= k <= 308 -> small_log_ok k = true.
Proof.
intros Hk.
assert (H : forallb small_log_ok (map Z.of_nat (seq 1 308)) = true)
  by (vm_compute; reflexivity).
rewrite forallb_forall in H. apply H.
rewrite in_map_iff. exists (Z.to_nat k). split; [lia|].
apply in_seq. lia.
Qed.

Lemma log10_ref_above_ten : log10_above_ten Reference.numlib.
Proof.
intros x Hval Hfin Hten. simpl.
destruct (@leb_normal 5629499534213120 (-49) x) as (m & e & -> & Hm & He & Hcase);
  try assumption; try lia.
simpl.
assert (Hk : 1 <= Reference.floor_log10 m e <= 308).
{ unfold Reference.floor_log10. assert (H1024 : 2 ^ 1024 < 10 ^ 309) by (vm_compute; reflexivity).
  destruct (0 <=? e) eqn:E.
  - apply Z.leb_le in E. apply ilog10_Z_bounds.
    assert (1 <= 2 ^ e) by (pose proof (Z.pow_pos_nonneg 2 e ltac:(lia) E); lia).
    assert (2 ^ e <= 2 ^ 971) by (apply Z.pow_le_mono_r; lia).
    assert (Zpos m * 2 ^ e < 2 ^ 53 * 2 ^ 971) by nia.
    replace (2 ^ 53 * 2 ^ 971) with (2 ^ 1024) in * by (vm_compute; reflexivity).
    split; [nia | lia].
  - apply Z.leb_gt in E.
    assert (Hden : 0 < 2 ^ (- e)) by (apply Z.pow_pos_nonneg; lia).
    assert (Hd49 : 2 ^ (- e) <= 2 ^ 49) by (apply Z.pow_le_mono_r; lia).
    replace (2 ^ (- e) <=? Z.pos m) with true by (symmetry; apply Z.leb_le; lia).
    apply ilog10_Z_bounds. split.
    + apply Z.div_le_lower_bound; [lia|].
      destruct Hcase as [Hlt | [<- Hm10]].
      * assert (2 ^ (- e) <= 2 ^ 48) by (apply Z.pow_le_mono_r; lia). lia.
      * simpl in *. lia.
    + apply Z.div_lt_upper_bound; [lia|].
      assert (Zpos m < 10 ^ 309) by lia.
      nia. }
pose proof (@of_Z_small _ Hk) as Hok. unfold small_log_ok in Hok.
apply andb_prop in Hok as [Hok H3]. apply andb_prop in Hok as [H1 H2].
auto.
Qed.

End LargeErrors.

Lemma format_significant_figures_large_error_witness :
  format_significant_figures (L := Reference.numlib) (F64.of_Z 3) (F64.of_Z (-12))
  = Raise (ValueError "Format specifier missing precision").
Proof.
  exact (proj2 (@format_significant_figures_large_error Reference.numlib
                  (F64.of_Z 3) (F64.of_Z (-12)) log10_ref_above_ten
                  eq_refl eq_refl eq_refl eq_refl)).
Defined.

(** * Further properties *)

(** ** Multiplying by [1.0] *)

Section MulOne.
Local Open Scope Z_scope.

Lemma mul_2p52 (m : positive) :
  (4503599627370496 * m)%positive = Nat.iter 52 xO m.
Proof. reflexivity. Qed.

Lemma digits2_pos_xO_iter (n : nat) (m : positive) :
  Zpos (digits2_pos (Nat.iter n xO m)) = Zpos (digits2_pos m) + Z.of_nat n.
Proof.
  induction n as [|n IH]; [simpl; lia|].
  rewrite Nat2Z.inj_succ.
  change (Nat.iter (S n) xO m) with (xO (Nat.iter n xO m)).
  cbn [digits2_pos]. rewrite Pos2Z.inj_succ. lia.
Qed.

Lemma shr_1_xO_iter (n : nat) (m : positive) :
  Nat.iter n shr_1 {| shr_m := Zpos (Nat.iter n xO m); shr_r := false; shr_s := false |}
  = {| shr_m := Zpos m; shr_r := false; shr_s := false |}.
Proof.
  induction n as [|n IH]; [reflexivity|].
  rewrite Nat.iter_succ_r.
  change (Nat.iter (S n) xO m) with (xO (Nat.iter n xO m)).
  cbn [shr_1 orb]. exact IH.
Qed.

Lemma iter_pos_52 {A} (f : A -> A) (x : A) : iter_pos f 52 x = Nat.iter 52 f x.
Proof. reflexivity. Qed.

Lemma mul_one_finite (s : bool) (m : positive) (e : Z) :
  F64.valid (S754_finite s m e) = true ->
  F64.mul F64.one (S754_finite s m e) = S754_finite s m e.
Proof.
  intros Hv.
  unfold F64.valid, valid_binary, bounded, canonical_mantissa in Hv.
  apply andb_prop in Hv as [Hc He]. apply Z.eqb_eq in Hc.
  unfold F64.mul, F64.one, SFmul. cbn [xorb].
  unfold binary_round_aux, shr_fexp.
  rewrite mul_2p52.
  unfold Zdigits2 at 1. rewrite (digits2_pos_xO_iter 52 m).
  replace (Z.pos (digits2_pos m) + Z.of_nat 52 + (-52 + e))
    with (Z.pos (digits2_pos m) + e) by lia.
  rewrite Hc.
  replace (e - (-52 + e)) with 52 by lia.
  unfold shr_record_of_loc at 1. unfold shr at 1.
  rewrite iter_pos_52, (shr_1_xO_iter 52 m).
  replace (-52 + e + 52) with e by lia.
  cbn [shr_m loc_of_shr_record round_nearest_even Zdigits2].
  rewrite Hc, Z.sub_diag. cbn [shr shr_record_of_loc shr_m].
  now rewrite He.
Qed.

Lemma mul_one (x : float) : F64.valid x = true -> F64.mul F64.one x = x.
Proof.
  destruct x as [s|s| |s m e]; try reflexivity. apply mul_one_finite.
Qed.

End MulOne.

(** ** Prior validation, the other cases *)

Section MorePriorFacts.
Context {G : GeneratorImpl}.

(** X1: a number given as prior is broadcast: every one of the [width]
    entries of [np.ones(width) * x] is [x] itself. *)
Theorem validate_priors_scalar (x y : float) (self : Generator) :
  F64.valid x = true -> F64.valid y = true ->
  _validate_priors (PyScalar x) (PyScalar y) self
  = (Ok tt, with_prior_sigma (array (repeat y width))
              (with_prior_mu (array (repeat x width)) self)).
Proof.
  intros Hx Hy. unfold _validate_priors, bind, set_prior_mu, set_prior_sigma.
  unfold np_ones. now rewrite !scale_repeat, (@mul_one x Hx), (@mul_one y Hy).
Qed.

(** X2: whenever both arguments are [None], a number or a sequence of
    [width] entries, the validation ends normally with both priors set and
    of length [width]; a sequence is stored as the object it is. *)
Theorem validate_priors_lengths (mu0 sigma0 : pyobj) (self : Generator) :
  accepted_prior mu0 -> accepted_prior sigma0 ->
  exists self' m s,
    _validate_priors mu0 sigma0 self = (Ok tt, self')
    /\ prior_mu self' = Some m /\ prior_sigma self' = Some s
    /\ length (items m) = width /\ length (items s) = width
    /\ (forall q, mu0 = PySeq q -> m = q)
    /\ (forall q, sigma0 = PySeq q -> s = q).
Proof.
  intros Hmu Hsigma. unfold _validate_priors, bind, set_prior_mu, set_prior_sigma, ret.
  destruct mu0 as [ |x|q| ]; try contradiction;
    destruct sigma0 as [ |y|r| ]; try contradiction; simpl in Hmu, Hsigma;
    try (rewrite (proj2 (Nat.eqb_eq _ _) Hmu));
    try (rewrite (proj2 (Nat.eqb_eq _ _) Hsigma));
    do 3 eexists;
    (split; [reflexivity|]); (split; [reflexivity|]); (split; [reflexivity|]);
    (split; [simpl; unfold scale, np_ones, np_zeros;
             rewrite ?length_map, ?repeat_length; first [reflexivity | assumption]|]);
    (split; [simpl; unfold scale, np_ones, np_zeros;
             rewrite ?length_map, ?repeat_length; first [reflexivity | assumption]|]);
    split; intros q' Hq; inversion Hq; reflexivity.
Qed.

(** X3: an argument of another type raises [ValueError].  For [prior_mu]
    the instance is untouched.  For [prior_sigma] the error comes after
    [prior_mu] was handled and [prior_sigma] is left as it was: [prior_mu]
    is already assigned when it was [None], a number or a sequence of
    [width] entries, and the instance is untouched when it was a sequence
    of another length. *)
Theorem validate_priors_other_type (mu0 sigma0 : pyobj) (self : Generator) :
  (mu0 = PyOther ->
   _validate_priors mu0 sigma0 self
   = (Raise (ValueError "Can not parse `prior_mu`."), self))
  /\ (mu0 <> PyOther -> sigma0 = PyOther ->
      exists self',
        _validate_priors mu0 sigma0 self
        = (Raise (ValueError "Can not parse `prior_sigma`."), self')
        /\ prior_sigma self' = prior_sigma self
        /\ (accepted_prior mu0 ->
            exists m, prior_mu self' = Some m /\ length (items m) = width)
        /\ (forall q, mu0 = PySeq q -> length (items q) <> width -> self' = self)).
Proof.
  split.
  - intros ->. reflexivity.
  - intros Hmu ->. unfold _validate_priors, bind, set_prior_mu, raise, ret.
    destruct mu0 as [ |x|q| ]; try congruence.
    + eexists. split; [reflexivity|]. split; [reflexivity|]. split.
      * intros _. eexists. split; [reflexivity|]. apply repeat_length.
      * discriminate.
    + eexists. split; [reflexivity|]. split; [reflexivity|]. split.
      * intros _. eexists. split; [reflexivity|]. simpl.
        unfold scale, np_ones. now rewrite length_map, repeat_length.
      * discriminate.
    + destruct (length (items q) =? width)%nat eqn:Hlen.
      * apply Nat.eqb_eq in Hlen.
        eexists. split; [reflexivity|]. split; [reflexivity|]. split.
        -- intros _. exists q. split; [reflexivity | exact Hlen].
        -- intros q' Hq Hne. injection Hq as <-. contradiction.
      * apply Nat.eqb_neq in Hlen.
        eexists. split; [reflexivity|]. split; [reflexivity|]. split.
        -- intros Hacc. simpl in Hacc. contradiction.
        -- reflexivity.
Qed.

(** X4: whatever the arguments, the validation writes nothing but the two
    priors: the fit results, [cov] and [data_shape] are as before. *)
Theorem validate_priors_frame (mu0 sigma0 : pyobj) (self : Generator) :
  let self' := snd (_validate_priors mu0 sigma0 self) in
  fit_mu self' = fit_mu self /\ fit_sigma self' = fit_sigma self
  /\ cov self' = cov self /\ data_shape self' = data_shape self.
Proof.
  unfold _validate_priors, bind, set_prior_mu, set_prior_sigma, ret, raise.
  destruct mu0 as [ |x|q| ]; destruct sigma0 as [ |y|r| ];
    repeat match goal with
           | |- context [(?a =? ?b)%nat] => destruct (a =? b)%nat
           end;
    repeat split.
Qed.
End MorePriorFacts.

Lemma validate_priors_scalar_witness :
  _validate_priors (G := Reference.constant 2) (PyScalar (F64.of_Z 3)) (PyScalar F64.ten)
    blank
  = (Ok tt, with_prior_sigma (array [F64.ten; F64.ten])
              (with_prior_mu (array [F64.of_Z 3; F64.of_Z 3]) blank)).
Proof.
  exact (@validate_priors_scalar (Reference.constant 2) (F64.of_Z 3) F64.ten blank
           eq_refl eq_refl).
Defined.

Lemma validate_priors_lengths_witness :
  exists self' m s,
    _validate_priors (G := Reference.constant 2)
      (PySeq {| kind := PyTuple; items := [F64.zero; F64.one] |}) PyNone blank
    = (Ok tt, self')
    /\ prior_mu self' = Some m /\ prior_sigma self' = Some s
    /\ length (items m) = 2%nat /\ length (items s) = 2%nat.
Proof.
  destruct (@validate_priors_lengths (Reference.constant 2)
              (PySeq {| kind := PyTuple; items := [F64.zero; F64.one] |}) PyNone blank
              eq_refl I) as (self' & m & s & H1 & H2 & H3 & H4 & H5 & _).
  exists self', m, s. repeat split; assumption.
Defined.

Lemma validate_priors_other_type_witness :
  _validate_priors (G := Reference.constant 2) PyOther PyNone blank
  = (Raise (ValueError "Can not parse `prior_mu`."), blank)
  /\ (exists self' m,
        _validate_priors (G := Reference.constant 2) PyNone PyOther blank
        = (Raise (ValueError "Can not parse `prior_sigma`."), self')
        /\ prior_mu self' = Some m /\ length (items m) = 2%nat
        /\ prior_sigma self' = None)
  /\ _validate_priors (G := Reference.constant 2)
       (PySeq {| kind := PyList; items := [F64.one] |}) PyOther blank
     = (Raise (ValueError "Can not parse `prior_sigma`."), blank).
Proof.
  split; [|split].
  - exact (proj1 (@validate_priors_other_type (Reference.constant 2)
                    PyOther PyNone blank) eq_refl).
  - destruct (proj2 (@validate_priors_other_type (Reference.constant 2)
                       PyNone PyOther blank) ltac:(discriminate) eq_refl)
      as (self' & Hrun & Hsigma & Hmu & _).
    destruct (Hmu I) as (m & Hm & Hlen).
    exists self', m. split; [exact Hrun|]. split; [exact Hm|].
    split; [exact Hlen | exact Hsigma].
  - destruct (proj2 (@validate_priors_other_type (Reference.constant 2)
                       (PySeq {| kind := PyList; items := [F64.one] |}) PyOther blank)
                ltac:(discriminate) eq_refl)
      as (self' & Hrun & _ & _ & Hsame).
    rewrite Hrun. f_equal.
    apply (Hsame {| kind := PyList; items := [F64.one] |} eq_refl).
    simpl. lia.
Defined.

(** ** Argument names *)

(** X5: the validation of the argument names ends normally exactly when
    every name is a [str], and raises [ValueError] otherwise. *)
Theorem validate_arg_names_all_str (arg_names : list pyname) :
  _validate_arg_names arg_names
  = if forallb is_str arg_names then Ok tt
    else Raise (ValueError "Argument names must be strings.").
Proof.
  induction arg_names as [|[s|shown] rest IH]; simpl; auto.
Qed.

(** ** Evaluation, the other cases *)

Section MoreEvaluateFacts.
Context {L : NumLib} {G : GeneratorImpl}.

(** X6: [evaluate], and so a call of the generator, reads the instance and
    never writes to it, whether it returns or raises. *)
Theorem evaluate_leaves_instance (args : Inputs) (self : Generator) :
  snd (evaluate args self) = self /\ snd (__call__ args self) = self.
Proof.
  assert (H : snd (evaluate args self) = self).
  { unfold evaluate, bind, mu, getattr, lift, ret.
    destruct (data_shape self) as [shp|];
      [destruct (nrows (design_matrix args) =? np_prod shp)%nat|];
      destruct (fit_mu self) as [m|]; try destruct (prior_mu self) as [p|];
      simpl; try reflexivity;
      match goal with
      | |- context [dot_mv ?X ?v] => destruct (dot_mv X v); reflexivity
      end. }
  split; exact H.
Qed.

(** X7: what [evaluate] returns has one element per row of the design
    matrix, the inner product of that row with the current coefficients,
    and a shape whose product is that number of elements. *)
Theorem evaluate_output (args : Inputs) (self self' : Generator) (out : ndarray) :
  evaluate args self = (Ok out, self') ->
  let X := design_matrix args in
  exists m, fst (mu self) = Ok m
    /\ length (items m) = ncols X
    /\ ravel out = map (fun r => vdot r (items m)) (rows X)
    /\ length (ravel out) = nrows X
    /\ np_prod (shape out) = length (ravel out).
Proof.
  intros H X.
  assert (Hmu : exists m, fst (mu self) = Ok m
                 /\ v <~ dot_mv X (items m) ;;
                    Ok (match data_shape self with
                        | Some shp => if (nrows X =? np_prod shp)%nat
                                      then reshape v shp else flat v
                        | None => flat v
                        end) = Ok out).
  { revert H. unfold evaluate, bind, mu, getattr, lift, ret. fold X.
    destruct (data_shape self) as [shp|];
      [destruct (nrows X =? np_prod shp)%nat|];
      destruct (fit_mu self) as [m|]; try destruct (prior_mu self) as [p|];
      simpl; try discriminate;
      match goal with
      | |- context [dot_mv X (items ?m)] =>
          exists m; destruct (dot_mv X (items m)); simpl in *;
          [split; [reflexivity | congruence] | discriminate]
      end. }
  destruct Hmu as (m & Hm & Hout). exists m. split; [exact Hm|].
  unfold dot_mv in Hout.
  destruct (ncols X =? length (items m))%nat eqn:E; [|discriminate].
  apply Nat.eqb_eq in E. simpl in Hout. injection Hout as <-.
  split; [now symmetry|].
  destruct (data_shape self) as [shp|];
    [destruct (nrows X =? np_prod shp)%nat eqn:Er|]; simpl;
    rewrite ?length_map; repeat split;
    try (rewrite np_prod_singleton; now rewrite length_map); try lia.
  apply Nat.eqb_eq in Er. now symmetry.
Qed.

(** X8: [evaluate] raises [AttributeError] on a generator that has neither
    a fit nor a [prior_mu], and the alignment [ValueError] when the
    coefficients are not as many as the columns of the design matrix. *)
Theorem evaluate_errors (args : Inputs) (self : Generator) :
  (fit_mu self = None -> prior_mu self = None ->
   evaluate args self = (Raise (AttributeError "prior_mu"), self))
  /\ (forall m, fst (mu self) = Ok m ->
        length (items m) <> ncols (design_matrix args) ->
        evaluate args self = (Raise shape_error, self)).
Proof.
  split.
  - intros Hfit Hprior. unfold evaluate, bind, mu, getattr, lift, ret.
    destruct (data_shape self) as [shp|];
      [destruct (nrows (design_matrix args) =? np_prod shp)%nat|];
      simpl; rewrite Hfit, Hprior; reflexivity.
  - intros m Hm Hlen.
    assert (Hdot : dot_mv (design_matrix args) (items m) = Raise shape_error).
    { unfold dot_mv.
      destruct (ncols (design_matrix args) =? length (items m))%nat eqn:E;
        [apply Nat.eqb_eq in E; congruence | reflexivity]. }
    revert Hm. unfold evaluate, bind, mu, getattr, lift, ret.
    destruct (data_shape self) as [shp|];
      [destruct (nrows (design_matrix args) =? np_prod shp)%nat|];
      destruct (fit_mu self) as [q|]; try destruct (prior_mu self) as [p|];
      simpl; try discriminate; intros [= ->]; now rewrite Hdot.
Qed.
End MoreEvaluateFacts.

Lemma evaluate_output_witness :
  exists m, fst (mu Reference.fitted) = Ok m
    /\ length (items m) = 1%nat
    /\ ravel {| shape := [2; 3]%nat; ravel := repeat (F64.of_Z 3) 6 |}
       = map (fun r => vdot (NumLib := Reference.numlib) r (items m))
           (repeat [F64.one] 6)
    /\ length (repeat (F64.of_Z 3) 6) = 6%nat
    /\ np_prod [2; 3]%nat = length (repeat (F64.of_Z 3) 6).
Proof.
  exact (@evaluate_output Reference.numlib (Reference.constant 1) 6%nat
           Reference.fitted Reference.fitted
           {| shape := [2; 3]%nat; ravel := repeat (F64.of_Z 3) 6 |} eq_refl).
Defined.

Lemma evaluate_errors_witness :
  evaluate (L := Reference.numlib) (G := Reference.constant 1) 3%nat blank
  = (Raise (AttributeError "prior_mu"), blank)
  /\ evaluate (L := Reference.numlib) (G := Reference.constant 2) 3%nat
       Reference.fitted
     = (Raise shape_error, Reference.fitted).
Proof.
  split.
  - exact (proj1 (@evaluate_errors Reference.numlib (Reference.constant 1) 3%nat blank)
             eq_refl eq_refl).
  - apply (proj2 (@evaluate_errors Reference.numlib (Reference.constant 2) 3%nat
                    Reference.fitted) (array [F64.of_Z 3]) eq_refl).
    simpl. discriminate.
Defined.

(** ** The fit, the other cases *)

Lemma select_length_eq {A B} (mask : list bool) (xs : list A) (ys : list B) :
  length xs = length ys -> length (select mask xs) = length (select mask ys).
Proof.
  revert xs ys. induction mask as [|b mask IH]; intros [|x xs] [|y ys] H;
    simpl in *; try discriminate; auto.
  destruct b; simpl; auto.
Qed.

Section MoreFitFacts.
Context {L : NumLib} {G : GeneratorImpl}.

(** With a mask and errors of one entry per row of [X], the data part of
    the normal equations is computed; only the prior can still fail. *)
Lemma normal_matrix_front (X : matrix) (mask : list bool) (errors : list float) :
  length mask = nrows X -> length errors = nrows X ->
  exists gram,
    forall sg, normal_matrix X mask errors sg
               = (s <~ attr "prior_sigma" sg ;; P <~ prior_diag s ;; mat_add gram P).
Proof.
  intros Hm He. unfold normal_matrix, index_rows, take_mask, rbind.
  unfold nrows in Hm, He.
  rewrite (proj2 (Nat.eqb_eq _ _) Hm).
  rewrite (proj2 (Nat.eqb_eq _ _) (eq_trans Hm (eq_sym He))).
  fold (masked X mask).
  assert (Hrows : nrows (masked X mask) = length (map F64.square (select mask errors))).
  { unfold nrows, masked. simpl. rewrite length_map.
    apply select_length_eq. now symmetry. }
  unfold div_rows. rewrite (proj2 (Nat.eqb_eq _ _) Hrows).
  unfold dot_tm at 1.
  match goal with
  | |- context [(nrows ?a =? nrows ?b)%nat] =>
      assert (Hn : nrows a = nrows b)
  end.
  { unfold nrows at 2. simpl. rewrite length_zip_with, <- Hrows.
    unfold nrows, masked. simpl. lia. }
  rewrite (proj2 (Nat.eqb_eq _ _) Hn).
  eexists. intros sg. reflexivity.
Qed.

(** X9: a fit on a generator whose [prior_sigma] was never set (the state a
    sequence of the wrong length leaves behind) raises [AttributeError]
    once the data part is computed, with [data_shape] already assigned. *)
Theorem fit_unset_prior_sigma (data : ndarray) (errors : option ndarray)
    (mask : option boolarray) (args : Inputs) (self : Generator) (mk : boolarray) :
  let X := design_matrix args in
  np_prod (shape data) = nrows X ->
  default_mask data mask = Ok mk ->
  length (bravel mk) = nrows X ->
  length (ravel (default_errors data errors)) = nrows X ->
  prior_sigma self = None ->
  _fit data errors mask args self
  = (Raise (AttributeError "prior_sigma"), with_data_shape (shape data) self).
Proof.
  intros X Hshape Hmask Hlm Hle Hsigma.
  pose proof (fit_run data errors mask args self) as E. cbv zeta in E. fold X in E.
  rewrite E. rewrite (proj2 (Nat.eqb_eq _ _) Hshape), Hmask. simpl.
  destruct (normal_matrix_front X _ _ Hlm Hle) as [gram Hgram].
  now rewrite Hgram, Hsigma.
Qed.

(** X10: a [prior_sigma] that is a list or a tuple fails at the fit: the
    power [prior_sigma ** 2] raises [TypeError], with [data_shape] already
    assigned. *)
Theorem fit_sequence_prior_sigma (data : ndarray) (errors : option ndarray)
    (mask : option boolarray) (args : Inputs) (self : Generator) (mk : boolarray)
    (s : pyseq) :
  let X := design_matrix args in
  np_prod (shape data) = nrows X ->
  default_mask data mask = Ok mk ->
  length (bravel mk) = nrows X ->
  length (ravel (default_errors data errors)) = nrows X ->
  prior_sigma self = Some s -> kind s <> NdArray ->
  _fit data errors mask args self
  = (Raise TypeError, with_data_shape (shape data) self).
Proof.
  intros X Hshape Hmask Hlm Hle Hsigma Hkind.
  pose proof (fit_run data errors mask args self) as E. cbv zeta in E. fold X in E.
  rewrite E. rewrite (proj2 (Nat.eqb_eq _ _) Hshape), Hmask. simpl.
  destruct (normal_matrix_front X _ _ Hlm Hle) as [gram Hgram].
  rewrite Hgram, Hsigma. unfold attr, rbind, prior_diag, seq_square, rbind.
  destruct (kind s); try reflexivity. contradiction.
Qed.

(** X11: a mask, or errors, with another number of entries than the rows
    of [X] raise [IndexError] at the boolean indexing, with [data_shape]
    already assigned. *)
Theorem fit_index_error (data : ndarray) (errors : option ndarray)
    (mask : option boolarray) (args : Inputs) (self : Generator) (mk : boolarray) :
  let X := design_matrix args in
  np_prod (shape data) = nrows X ->
  default_mask data mask = Ok mk ->
  length (bravel mk) <> nrows X
  \/ length (ravel (default_errors data errors)) <> length (bravel mk) ->
  _fit data errors mask args self
  = (Raise IndexError, with_data_shape (shape data) self).
Proof.
  intros X Hshape Hmask Hbad.
  pose proof (fit_run data errors mask args self) as E. cbv zeta in E. fold X in E.
  rewrite E. rewrite (proj2 (Nat.eqb_eq _ _) Hshape), Hmask. simpl.
  unfold normal_matrix, index_rows, take_mask, rbind. fold (nrows X).
  destruct (length (bravel mk) =? nrows X)%nat eqn:E1; [|reflexivity].
  apply Nat.eqb_eq in E1.
  destruct (length (bravel mk) =? length (ravel (default_errors data errors)))%nat
    eqn:E2; [|reflexivity].
  apply Nat.eqb_eq in E2. destruct Hbad as [Hbad|Hbad]; congruence.
Qed.

(** X12: fitting again is fitting afresh: the outcome of [_fit] depends on
    the priors only, not on what an earlier fit left, and a fit repeated on
    the instance it produced returns the same result and the same
    instance. *)
Theorem fit_again (data : ndarray) (errors : option ndarray)
    (mask : option boolarray) (args : Inputs) (self self' : Generator)
    (r : pyseq * pyseq) :
  _fit data errors mask args self = (Ok r, self') ->
  _fit data errors mask args self' = (Ok r, self')
  /\ forall other, prior_mu other = prior_mu self ->
       prior_sigma other = prior_sigma self ->
       fst (_fit data errors mask args other) = Ok r.
Proof.
  intros H.
  destruct (@fit_returns L G data errors mask args self self' r H)
    as (mk & A & C & b & m & Hshape & Hmask & HA & HC & Hb & Hm & -> & ->).
  assert (Hrun : forall other, prior_mu other = prior_mu self ->
                   prior_sigma other = prior_sigma self ->
                   _fit data errors mask args other
                   = (Ok (array m, array (map F64.sqrt (diagonal C))),
                      with_cov C (with_data_shape (shape data) other))).
  { intros other Hmu Hsigma.
    pose proof (fit_run data errors mask args other) as E. cbv zeta in E.
    rewrite E, (proj2 (Nat.eqb_eq _ _) Hshape), Hmask, Hmu, Hsigma. simpl.
    now rewrite HA, HC, Hb, Hm. }
  split.
  - now rewrite Hrun.
  - intros other Hmu Hsigma. now rewrite Hrun.
Qed.

(** X13: every return of [_fit] comes from a matching element count, a
    successful inversion and a successful solve; the result is the pair
    of the solution and the square roots of the diagonal of the inverse,
    and the instance differs from the one before in [cov] and
    [data_shape] only. *)
Theorem fit_return_form (data : ndarray) (errors : option ndarray)
    (mask : option boolarray) (args : Inputs) (self self' : Generator)
    (r : pyseq * pyseq) :
  _fit data errors mask args self = (Ok r, self') ->
  exists A C b m,
    np_prod (shape data) = nrows (design_matrix args)
    /\ linalg_inv A = Ok C /\ linalg_solve A b = Ok m
    /\ r = (array m, array (map F64.sqrt (diagonal C)))
    /\ self' = with_cov C (with_data_shape (shape data) self)
    /\ prior_mu self' = prior_mu self /\ prior_sigma self' = prior_sigma self
    /\ fit_mu self' = fit_mu self /\ fit_sigma self' = fit_sigma self.
Proof.
  intros H.
  destruct (@fit_returns L G data errors mask args self self' r H)
    as (mk & A & C & b & m & Hshape & Hmask & HA & HC & Hb & Hm & -> & ->).
  exists A, C, b, m. repeat split; assumption.
Qed.
End MoreFitFacts.

Lemma fit_unset_prior_sigma_witness :
  _fit (L := Reference.numlib) (G := Reference.constant 1)
    (Reference.vector [1; 2; 3; 4; 5]%Z) None None 5%nat
    (with_prior_mu (array [F64.zero]) blank)
  = (Raise (AttributeError "prior_sigma"),
     with_data_shape [5%nat] (with_prior_mu (array [F64.zero]) blank)).
Proof.
  exact (@fit_unset_prior_sigma Reference.numlib (Reference.constant 1)
           (Reference.vector [1; 2; 3; 4; 5]%Z) None None 5%nat
           (with_prior_mu (array [F64.zero]) blank)
           {| bshape := [5%nat]; bravel := repeat true 5 |}
           eq_refl eq_refl eq_refl eq_refl eq_refl).
Defined.

Lemma fit_sequence_prior_sigma_witness :
  _fit (L := Reference.numlib) (G := Reference.constant 1)
    (Reference.vector [1; 2; 3; 4; 5]%Z) None None 5%nat
    (with_prior_sigma {| kind := PyList; items := [F64.one] |}
       (with_prior_mu (array [F64.zero]) blank))
  = (Raise TypeError,
     with_data_shape [5%nat]
       (with_prior_sigma {| kind := PyList; items := [F64.one] |}
          (with_prior_mu (array [F64.zero]) blank))).
Proof.
  apply (@fit_sequence_prior_sigma Reference.numlib (Reference.constant 1)
           (Reference.vector [1; 2; 3; 4; 5]%Z) None None 5%nat
           (with_prior_sigma {| kind := PyList; items := [F64.one] |}
              (with_prior_mu (array [F64.zero]) blank))
           {| bshape := [5%nat]; bravel := repeat true 5 |}
           {| kind := PyList; items := [F64.one] |}
           eq_refl eq_refl eq_refl eq_refl eq_refl).
  discriminate.
Defined.

Lemma fit_index_error_witness :
  _fit (L := Reference.numlib) (G := Reference.constant 1)
    (Reference.vector [1; 2; 3; 4; 5]%Z) None
    (Some {| bshape := [3%nat]; bravel := [true; true; false] |}) 5%nat
    (Reference.unfitted 1)
  = (Raise IndexError, with_data_shape [5%nat] (Reference.unfitted 1)).
Proof.
  apply (@fit_index_error Reference.numlib (Reference.constant 1)
           (Reference.vector [1; 2; 3; 4; 5]%Z) None
           (Some {| bshape := [3%nat]; bravel := [true; true; false] |}) 5%nat
           (Reference.unfitted 1)
           {| bshape := [3%nat]; bravel := [true; true; false] |}
           eq_refl eq_refl).
  left. simpl. discriminate.
Defined.

Lemma fit_again_witness :
  _fit (L := Reference.numlib) (G := Reference.constant 1)
    (Reference.vector [1; 2; 3; 4; 5]%Z) None None 5%nat
    (with_cov {| ncols := 1; rows := [[F64.div F64.one (F64.of_Z 5)]] |}
       (with_data_shape [5%nat] (Reference.unfitted 1)))
  = (Ok (array [F64.of_Z 3],
         array [F64.sqrt (F64.div F64.one (F64.of_Z 5))]),
     with_cov {| ncols := 1; rows := [[F64.div F64.one (F64.of_Z 5)]] |}
       (with_data_shape [5%nat] (Reference.unfitted 1))).
Proof.
  refine (proj1 (@fit_again Reference.numlib (Reference.constant 1)
                   (Reference.vector [1; 2; 3; 4; 5]%Z) None None 5%nat
                   (Reference.unfitted 1) _ _ _)).
  vm_compute. reflexivity.
Defined.

Lemma fit_return_form_witness :
  exists A C b m,
    np_prod [5%nat] = 5%nat
    /\ linalg_inv (NumLib := Reference.numlib) A = Ok C
    /\ linalg_solve (NumLib := Reference.numlib) A b = Ok m
    /\ (array [F64.of_Z 3], array [F64.sqrt (F64.div F64.one (F64.of_Z 5))])
       = (array m, array (map F64.sqrt (diagonal C)))
    /\ with_cov {| ncols := 1; rows := [[F64.div F64.one (F64.of_Z 5)]] |}
         (with_data_shape [5%nat] (Reference.unfitted 1))
       = with_cov C (with_data_shape [5%nat] (Reference.unfitted 1))
    /\ Some (array [F64.zero]) = prior_mu (Reference.unfitted 1)
    /\ Some (array [F64.inf]) = prior_sigma (Reference.unfitted 1)
    /\ None = fit_mu (Reference.unfitted 1)
    /\ None = fit_sigma (Reference.unfitted 1).
Proof.
  refine (@fit_return_form Reference.numlib (Reference.constant 1)
            (Reference.vector [1; 2; 3; 4; 5]%Z) None None 5%nat
            (Reference.unfitted 1) _ _ _).
  vm_compute. reflexivity.
Defined.

(** ** Significant figures, the general case *)

Lemma read_digits_uint (d : Decimal.uint) (tl : string) :
  read_digits tl = ("", tl) ->
  read_digits (NilEmpty.string_of_uint d ++ tl) = (NilEmpty.string_of_uint d, tl).
Proof.
  intros Htl. induction d as [|d IH|d IH|d IH|d IH|d IH|d IH|d IH|d IH|d IH|d IH];
    simpl; [exact Htl | now rewrite IH ..].
Qed.

Lemma string_of_uint_nonempty (d : Decimal.uint) :
  d <> Decimal.Nil -> exists c s, NilEmpty.string_of_uint d = String c s.
Proof. destruct d; try congruence; intros _; simpl; eauto. Qed.

Lemma py_format_float_precision (x : float) (n : Z) :
  (0 <= n)%Z ->
  py_format_float x ("." ++ py_str n ++ "f") = Ok (format_fixed x (Z.to_N n)).
Proof.
  intros Hn. unfold py_str.
  assert (H : exists d, NilZero.string_of_int (Z.to_int n) = NilEmpty.string_of_uint d
                        /\ d <> Decimal.Nil /\ N.of_uint d = Z.to_N n).
  { destruct n as [|p|p]; try lia.
    - exists (Decimal.D0 Decimal.Nil). repeat split. discriminate.
    - exists (Pos.to_uint p). simpl.
      pose proof (Unsigned.to_uint_nonnil p) as Hnil.
      destruct (Pos.to_uint p) eqn:E; try congruence;
        (split; [reflexivity | split; [discriminate | rewrite <- E; apply DecimalPos.Unsigned.of_to]]). }
  destruct H as (d & -> & Hnil & Hd).
  unfold py_format_float. cbn [append].
  rewrite (@read_digits_uint d "f") by reflexivity.
  destruct (@string_of_uint_nonempty d Hnil) as (c & s & Hs).
  pose proof (NilEmpty.usu d) as Hu. rewrite Hs in Hu |- *.
  rewrite Hu, Hd. reflexivity.
Qed.

Section MoreReportFacts.
Context {L : NumLib}.

(** X14: for a finite mean and a finite non-zero error whose decimal
    logarithm has the integer part [k <= 0], both numbers are formatted
    with [-k] decimals. *)
Theorem format_significant_figures_decimals (mean error : float) (k : Z) :
  F64.isfinite mean = true -> F64.isfinite error = true ->
  F64.eqb error F64.zero = false ->
  py_floor (math_log10 (F64.abs error)) = Ok k -> (k <= 0)%Z ->
  format_significant_figures mean error
  = Ok (format_fixed mean (Z.to_N (- k)), format_fixed error (Z.to_N (- k))).
Proof.
  intros Hm He H0 Hk Hle. unfold format_significant_figures.
  replace (F64.isinf mean || F64.isinf error || F64.isnan mean || F64.isnan error)
    with false by (destruct mean, error; simpl in *; congruence).
  rewrite H0, Hk. unfold rbind.
  now rewrite !py_format_float_precision by lia.
Qed.

End MoreReportFacts.

Lemma format_significant_figures_decimals_witness :
  format_significant_figures (L := Reference.numlib)
    (F64.div (F64.of_Z 123456) (F64.of_Z 100000)) (F64.div (F64.of_Z 14) (F64.of_Z 1000))
  = Ok ("1.23", "0.01").
Proof.
  exact (@format_significant_figures_decimals Reference.numlib
           (F64.div (F64.of_Z 123456) (F64.of_Z 100000))
           (F64.div (F64.of_Z 14) (F64.of_Z 1000)) (-2)%Z
           eq_refl eq_refl eq_refl eq_refl ltac:(discriminate)).
Defined.

(** ** The flat prior *)

Lemma nth_repeat_lt {A} (a d : A) (n i : nat) :
  (i < n)%nat -> nth i (repeat a n) d = a.
Proof.
  revert i. induction n as [|n IH]; intros [|i] Hi; simpl; try lia; auto.
  apply IH. lia.
Qed.

Lemma add_zero_r (x : float) :
  x <> S754_zero true -> F64.add x F64.zero = x.
Proof.
  destruct x as [s|s| |s m e]; try reflexivity.
  destruct s; [congruence | reflexivity].
Qed.

Section FlatPrior.
Context {L : NumLib} {G : GeneratorImpl}.

(** X16: with the default priors (zero mean, infinite sigma) the prior
    adds [0.0] to every entry: the normal equations are those of weighted
    least squares, [A = X^T (X / e^2)] and [b = X^T (y / e^2)], entry by
    entry (a [-0.0] entry becoming [0.0]). *)
Theorem fit_flat_prior_least_squares (X : matrix) (mask : list bool)
    (data errors : list float) (A : matrix) (b : list float) :
  rectangular X ->
  normal_matrix X mask errors (Some (array (repeat F64.inf (ncols X)))) = Ok A ->
  right_hand_side X mask data errors (Some (array (repeat F64.zero (ncols X))))
    (Some (array (repeat F64.inf (ncols X)))) = Ok b ->
  forall i, (i < ncols X)%nat ->
    let xty := vdot (column (masked X mask) i)
                 (zip_with F64.div (select mask data) (weights mask errors)) in
    nth i b F64.zero = F64.add xty F64.zero
    /\ (xty <> S754_zero true -> nth i b F64.zero = xty)
    /\ forall j, (j < ncols X)%nat ->
         let g := vdot (column (masked X mask) i)
                    (zip_with F64.div (column (masked X mask) j)
                              (weights mask errors)) in
         entry A i j = F64.add g F64.zero
         /\ (g <> S754_zero true -> entry A i j = g).
Proof.
  intros Hrect HA Hb i Hi xty.
  pose proof (@right_hand_side_entries L X mask data errors _ _ b Hb i Hi) as Hbi.
  cbn [items array] in Hbi.
  rewrite !nth_repeat_lt in Hbi by assumption.
  change (prior_term F64.zero F64.inf) with F64.zero in Hbi. fold xty in Hbi.
  split; [exact Hbi|]. split.
  - intros Hx. now rewrite Hbi, add_zero_r.
  - intros j Hj g.
    destruct (@normal_matrix_entries L X mask errors _ A Hrect HA) as [_ HAij].
    specialize (HAij i j Hi Hj). cbn [items array] in HAij.
    rewrite nth_repeat_lt in HAij by assumption.
    change (prior_precision F64.inf) with F64.zero in HAij. fold g in HAij.
    assert (Hadd : entry A i j = F64.add g F64.zero)
      by (rewrite HAij; destruct (i =? j)%nat; reflexivity).
    split; [exact Hadd|]. intros Hg. now rewrite Hadd, add_zero_r.
Qed.
End FlatPrior.

Lemma fit_flat_prior_least_squares_witness :
  nth 0 [F64.of_Z 15] F64.zero = F64.of_Z 15
  /\ entry {| ncols := 1; rows := [[F64.of_Z 5]] |} 0 0 = F64.of_Z 5.
Proof.
  destruct (@fit_flat_prior_least_squares Reference.numlib
              {| ncols := 1; rows := repeat [F64.one] 5 |} (repeat true 5)
              (map F64.of_Z [1; 2; 3; 4; 5]%Z) (repeat F64.one 5)
              {| ncols := 1; rows := [[F64.of_Z 5]] |} [F64.of_Z 15]) with (i := 0%nat)
    as (_ & Hb & HA).
  - intros r Hr. simpl in Hr. repeat destruct Hr as [<-|Hr]; try reflexivity.
    contradiction.
  - vm_compute. reflexivity.
  - vm_compute. reflexivity.
  - simpl. lia.
  - split.
    + apply Hb. vm_compute. discriminate.
    + apply (HA 0%nat). simpl; lia. vm_compute. discriminate.
Defined.

(** ** The table of coefficients *)

Lemma rmap_ok {A B} (f : A -> result B) (g : A -> B) (xs : list A) :
  (forall x, In x xs -> f x = Ok (g x)) -> rmap f xs = Ok (map g xs).
Proof.
  induction xs as [|x xs IH]; intros H; simpl; [reflexivity|].
  rewrite (H x) by now left. simpl.
  rewrite IH by (intros y Hy; apply H; now right). reflexivity.
Qed.

Lemma rmap_inv {A B} (f : A -> result B) (xs : list A) (ys : list B) :
  rmap f xs = Ok ys -> Forall2 (fun x y => f x = Ok y) xs ys.
Proof.
  revert ys. induction xs as [|x xs IH]; intros ys; simpl.
  - intros [= <-]. constructor.
  - destruct (f x) as [y|e] eqn:Hx; simpl; [|discriminate].
    destruct (rmap f xs) as [zs|e]; simpl; [|discriminate].
    intros [= <-]. constructor; auto.
Qed.

Lemma rmap_raise {A B} (f : A -> result B) (xs : list A) (e : exn) :
  (forall x, In x xs -> (exists y, f x = Ok y) \/ f x = Raise e) ->
  (exists x, In x xs /\ f x = Raise e) ->
  rmap f xs = Raise e.
Proof.
  induction xs as [|x xs IH]; intros Hall (x0 & Hin & Hx0); [contradiction|].
  simpl. destruct (Hall x (or_introl eq_refl)) as [[y Hy]|Hx].
  - rewrite Hy. simpl. rewrite IH; [reflexivity | |].
    + intros z Hz. apply Hall. now right.
    + destruct Hin as [<-|Hin]; [congruence|]. eauto.
  - now rewrite Hx.
Qed.

Lemma rmap_fails {A B} (f : A -> result B) (xs : list A) (x : A) (e : exn) :
  In x xs -> f x = Raise e -> exists e', rmap f xs = Raise e'.
Proof.
  induction xs as [|a xs IH]; intros Hin Hx; [contradiction|].
  simpl. destruct Hin as [->|Hin].
  - rewrite Hx. simpl. eauto.
  - destruct (f a); simpl; [|eauto].
    destruct (IH Hin Hx) as [e' ->]. simpl. eauto.
Qed.

Lemma getitem_nth (s : pyseq) (idx : nat) :
  (idx < length (items s))%nat -> getitem s idx = Ok (nth idx (items s) F64.zero).
Proof.
  intros H. unfold getitem.
  destruct (nth_error (items s) idx) as [x|] eqn:E.
  - now rewrite (nth_error_nth _ _ F64.zero E).
  - apply nth_error_None in E. lia.
Qed.

Lemma getitem_cases (s : pyseq) (idx : nat) :
  ((idx < length (items s))%nat /\ getitem s idx = Ok (nth idx (items s) F64.zero))
  \/ ((length (items s) <= idx)%nat /\ getitem s idx = Raise IndexError).
Proof.
  destruct (le_lt_dec (length (items s)) idx) as [H|H].
  - right. split; [exact H|]. unfold getitem.
    now rewrite (proj2 (nth_error_None (items s) idx) H).
  - left. split; [exact H | now apply getitem_nth].
Qed.

Section TableFacts.
Context {L : NumLib} {G : GeneratorImpl} {R : ReportImpl}.

Lemma table_properties_ok (self : Generator) (m s pm ps : pyseq) :
  fst (mu self) = Ok m -> fst (sigma self) = Ok s ->
  prior_mu self = Some pm -> prior_sigma self = Some ps ->
  (width <= length (items m))%nat -> (width <= length (items s))%nat ->
  (width <= length (items pm))%nat -> (width <= length (items ps))%nat ->
  table_properties self
  = Ok (map (fun idx =>
               ("w_{idx}",
                (nth idx (items m) F64.zero, nth idx (items s) F64.zero),
                Some (nth idx (items pm) F64.zero, nth idx (items ps) F64.zero)))
            (seq 0 width)).
Proof.
  intros Hm Hs Hpm Hps Lm Ls Lpm Lps. unfold table_properties. apply rmap_ok.
  intros idx Hidx. apply in_seq in Hidx. unfold table_property.
  rewrite Hm, Hs, Hpm, Hps. simpl.
  rewrite !getitem_nth by lia. reflexivity.
Qed.

Lemma table_properties_short (self : Generator) (m s pm ps : pyseq) :
  fst (mu self) = Ok m -> fst (sigma self) = Ok s ->
  prior_mu self = Some pm -> prior_sigma self = Some ps ->
  (Nat.min (Nat.min (length (items m)) (length (items s)))
           (Nat.min (length (items pm)) (length (items ps))) < width)%nat ->
  table_properties self = Raise IndexError.
Proof.
  intros Hm Hs Hpm Hps Hw.
  set (shortest := Nat.min _ _) in Hw.
  unfold table_properties. apply rmap_raise.
  - intros idx _. unfold table_property. rewrite Hm, Hs, Hpm, Hps. simpl.
    destruct (getitem_cases m idx) as [[_ ->]|[_ ->]]; simpl; [|now right].
    destruct (getitem_cases s idx) as [[_ ->]|[_ ->]]; simpl; [|now right].
    destruct (getitem_cases pm idx) as [[_ ->]|[_ ->]]; simpl; [|now right].
    destruct (getitem_cases ps idx) as [[_ ->]|[_ ->]]; simpl; [|now right].
    left. eauto.
  - exists shortest. split; [apply in_seq; lia|].
    unfold table_property. rewrite Hm, Hs, Hpm, Hps. simpl.
    destruct (getitem_cases m shortest) as [[? ->]|[_ ->]]; simpl; [|reflexivity].
    destruct (getitem_cases s shortest) as [[? ->]|[_ ->]]; simpl; [|reflexivity].
    destruct (getitem_cases pm shortest) as [[? ->]|[_ ->]]; simpl; [|reflexivity].
    destruct (getitem_cases ps shortest) as [[? ->]|[_ ->]]; simpl; [|reflexivity].
    unfold shortest in *. lia.
Qed.

(** X17: with the current coefficients [m], their uncertainties [s] and
    the priors [pm] and [ps] at hand, [table_properties] is the list of
    [width] entries, entry [idx] holding the symbol [w_{idx}] and entry
    [idx] of each of the four, when each has at least [width] entries; it
    raises [IndexError] when one of them is shorter. *)
Theorem table_properties_rows (self : Generator) (m s pm ps : pyseq) :
  fst (mu self) = Ok m -> fst (sigma self) = Ok s ->
  prior_mu self = Some pm -> prior_sigma self = Some ps ->
  let shortest := Nat.min (Nat.min (length (items m)) (length (items s)))
                          (Nat.min (length (items pm)) (length (items ps))) in
  ((width <= shortest)%nat ->
   table_properties self
   = Ok (map (fun idx =>
                ("w_{idx}",
                 (nth idx (items m) F64.zero, nth idx (items s) F64.zero),
                 Some (nth idx (items pm) F64.zero, nth idx (items ps) F64.zero)))
             (seq 0 width)))
  /\ ((shortest < width)%nat -> table_properties self = Raise IndexError).
Proof.
  intros Hm Hs Hpm Hps shortest. split.
  - intros Hw. apply table_properties_ok; auto; lia.
  - now apply table_properties_short.
Qed.
End TableFacts.

Lemma table_properties_rows_witness :
  table_properties (G := Reference.constant 1) Reference.fitted
  = Ok [("w_{idx}", (F64.of_Z 3, F64.one), Some (F64.zero, F64.inf))]
  /\ table_properties (G := Reference.constant 2) Reference.fitted = Raise IndexError.
Proof.
  split.
  - apply (proj1 (@table_properties_rows (Reference.constant 1) Reference.fitted
                    (array [F64.of_Z 3]) (array [F64.one])
                    (array [F64.zero]) (array [F64.inf])
                    eq_refl eq_refl eq_refl eq_refl)).
    simpl. lia.
  - apply (proj2 (@table_properties_rows (Reference.constant 2) Reference.fitted
                    (array [F64.of_Z 3]) (array [F64.one])
                    (array [F64.zero]) (array [F64.inf])
                    eq_refl eq_refl eq_refl eq_refl)).
    simpl. lia.
Defined.

(** ** The table in LaTeX *)

Lemma brace_free_app (a b : string) :
  brace_free (a ++ b) = brace_free a && brace_free b.
Proof.
  induction a as [|c a IH]; simpl; [reflexivity|].
  rewrite IH. now rewrite andb_assoc.
Qed.

Lemma brace_free_substring (n m : nat) (s : string) :
  brace_free s = true -> brace_free (substring n m s) = true.
Proof.
  revert n m. induction s as [|c s IH]; intros [|n] [|m] H; simpl; auto.
  - simpl in H. apply andb_prop in H as [Hc Hs]. rewrite Hc. simpl. auto.
  - simpl in H. apply andb_prop in H as [Hc Hs]. auto.
  - simpl in H. apply andb_prop in H as [Hc Hs]. auto.
Qed.

Lemma brace_free_zeros (n : nat) : brace_free (zeros n) = true.
Proof. induction n as [|n IH]; simpl; auto. Qed.

Lemma brace_free_uint (d : Decimal.uint) :
  brace_free (NilZero.string_of_uint d) = true.
Proof.
  assert (H : brace_free (NilEmpty.string_of_uint d) = true)
    by (induction d; simpl; auto).
  destruct d; simpl in *; auto.
Qed.

Lemma brace_free_place_point (n : Z) (p : N) : brace_free (place_point n p) = true.
Proof.
  unfold place_point.
  set (ds := zeros _ ++ NilZero.string_of_uint (N.to_uint (Z.to_N n))).
  assert (Hds : brace_free ds = true).
  { unfold ds. now rewrite brace_free_app, brace_free_zeros, brace_free_uint. }
  destruct (N.to_nat p) as [|k]; [exact Hds|].
  rewrite !brace_free_app, !brace_free_substring by exact Hds. reflexivity.
Qed.

Lemma brace_free_format_fixed (x : float) (p : N) :
  brace_free (format_fixed x p) = true.
Proof.
  destruct x as [s|s| |s m e]; unfold format_fixed;
    rewrite ?brace_free_app, ?brace_free_place_point; try destruct s; reflexivity.
Qed.

Lemma py_format_float_brace_free (x : float) (spec a : string) :
  py_format_float x spec = Ok a -> brace_free a = true.
Proof.
  unfold py_format_float. destruct spec as [|c rest]; [discriminate|].
  destruct c as [[] [] [] [] [] [] [] []]; try discriminate.
  destruct (read_digits rest) as [ds tl].
  destruct ds as [|d ds]; [discriminate|].
  destruct (NilEmpty.uint_of_string (String d ds)) as [u|]; [|discriminate].
  destruct (String.eqb tl "f"); [|discriminate].
  intros [= <-]. apply brace_free_format_fixed.
Qed.

Lemma str_format_char (idx : nat) (c : ascii) (s : string) :
  Ascii.eqb c "{" = false -> Ascii.eqb c "}" = false ->
  str_format idx None (String c s)
  = obind (str_format idx None s) (fun r => Done (String c r)).
Proof.
  destruct c as [[] [] [] [] [] [] [] []]; intros H1 H2;
    try discriminate; reflexivity.
Qed.

Lemma str_format_plain (idx : nat) (s : string) :
  brace_free s = true -> str_format idx None s = Done s.
Proof.
  induction s as [|c s IH]; intros H; [reflexivity|].
  simpl in H. apply andb_prop in H as [Hc Hs]. apply andb_prop in Hc as [H1 H2].
  apply negb_true_iff in H1, H2.
  rewrite str_format_char by assumption. now rewrite IH.
Qed.

Lemma str_format_symbol (idx : nat) (rest : string) :
  brace_free rest = true ->
  str_format idx None ("w_{idx}" ++ rest) = Done (numbered idx rest).
Proof.
  intros H.
  change ("w_{idx}" ++ rest) with (String "w" (String "_" ("{idx}" ++ rest))).
  rewrite !str_format_char by reflexivity.
  change (str_format idx None ("{idx}" ++ rest))
    with (obind (replacement idx "idx") (fun v =>
          obind (str_format idx None rest) (fun r => Done (v ++ r)))).
  rewrite str_format_plain by exact H. reflexivity.
Qed.

Lemma append_rows_numbered (rests : list string) (acc : string) (a : nat) :
  forallb brace_free rests = true ->
  append_rows acc a (map (append "w_{idx}") rests)
  = Done (fold_left append
            (map (fun ir => numbered (fst ir) (snd ir))
                 (combine (seq a (length rests)) rests)) acc).
Proof.
  revert acc a. induction rests as [|r rests IH]; intros acc a H; [reflexivity|].
  simpl in H. apply andb_prop in H as [Hr Hrests].
  cbn [map append_rows length seq combine fold_left fst snd].
  rewrite str_format_symbol by exact Hr. cbn [obind].
  now rewrite IH.
Qed.

Lemma map_combine_const {A B C} (f : A * B -> C) (b : B) (xs : list A) :
  map f (combine xs (map (fun _ => b) xs)) = map (fun x => f (x, b)) xs.
Proof. induction xs as [|x xs IH]; simpl; [reflexivity | now rewrite IH]. Qed.

Lemma rmap_map {A B C} (f : B -> result C) (g : A -> B) (xs : list A) :
  rmap f (map g xs) = rmap (fun x => f (g x)) xs.
Proof. induction xs as [|x xs IH]; simpl; [reflexivity | now rewrite IH]. Qed.

Section LatexFacts.
Context {L : NumLib} {G : GeneratorImpl} {R : ReportImpl}.

Lemma format_significant_figures_brace_free (mean error : float) (a b : string) :
  format_significant_figures mean error = Ok (a, b) ->
  brace_free a = true /\ brace_free b = true.
Proof.
  unfold format_significant_figures.
  destruct (F64.isinf mean || F64.isinf error || F64.isnan mean || F64.isnan error).
  - intros [= <- <-]. split; reflexivity.
  - match goal with |- rbind ?r _ = _ -> _ => destruct r as [k|e] end;
      [|discriminate]. unfold rbind.
    destruct (py_format_float mean _) as [fm|e] eqn:Hm; [|discriminate].
    destruct (py_format_float error _) as [fe|e] eqn:He; [|discriminate].
    intros [= <- <-]. split; eapply py_format_float_brace_free; eassumption.
Qed.

Lemma table_row_shape (symbol : string) (fit prior : float * float) (row : string) :
  table_row (symbol, fit, Some prior) = Ok row ->
  exists rest, row = symbol ++ rest /\ brace_free rest = true.
Proof.
  unfold table_row.
  destruct (format_significant_figures (fst fit) (snd fit)) as [[fm fe]|e] eqn:Hf;
    [|discriminate].
  destruct (format_significant_figures (fst prior) (snd prior)) as [[pm pe]|e] eqn:Hp;
    [|discriminate].
  unfold rbind. intros [= <-]. eexists. split; [reflexivity|].
  destruct (format_significant_figures_brace_free _ _ Hf) as [H1 H2].
  destruct (format_significant_figures_brace_free _ _ Hp) as [H3 H4].
  cbn [fst snd].
  repeat (simpl; rewrite brace_free_app, ?H1, ?H2, ?H3, ?H4). reflexivity.
Qed.

Lemma table_property_shape (self : Generator) (idx : nat) (p : table_entry) :
  table_property self idx = Ok p ->
  exists fit prior, p = ("w_{idx}", fit, Some prior).
Proof.
  unfold table_property.
  destruct (fst (mu self)) as [m|e]; [|discriminate]. simpl.
  destruct (getitem m idx) as [mi|e]; [|discriminate]. simpl.
  destruct (fst (sigma self)) as [s|e]; [|discriminate]. simpl.
  destruct (getitem s idx) as [si|e]; [|discriminate]. simpl.
  destruct (attr "prior_mu" (prior_mu self)) as [pm|e]; [|discriminate]. simpl.
  destruct (getitem pm idx) as [pmi|e]; [|discriminate]. simpl.
  destruct (attr "prior_sigma" (prior_sigma self)) as [ps|e]; [|discriminate]. simpl.
  destruct (getitem ps idx) as [psi|e]; [|discriminate]. simpl.
  intros [= <-]. eauto.
Qed.

Lemma table_rows_shape (self : Generator) (idxs : list nat)
    (props : list table_entry) (rows : list string) :
  Forall2 (fun idx p => table_property self idx = Ok p) idxs props ->
  Forall2 (fun p row => table_row p = Ok row) props rows ->
  exists rests, rows = map (append "w_{idx}") rests
                /\ length rests = length idxs
                /\ forallb brace_free rests = true.
Proof.
  intros Hprops. revert rows.
  induction Hprops as [|idx p idxs props Hp _ IH]; intros rows Hrows.
  - inversion Hrows. exists []. auto.
  - inversion Hrows as [|p' row props' rows' Hrow Hrest]; subst.
    destruct (table_property_shape _ _ Hp) as (fit & prior & ->).
    destruct (table_row_shape _ _ _ Hrow) as (rest & -> & Hfree).
    destruct (IH _ Hrest) as (rests & -> & Hlen & Hall).
    exists (rest :: rests). simpl. rewrite Hlen, Hfree, Hall. auto.
Qed.

Lemma to_latex_of_rows (self : Generator) (rests : list string) :
  _get_table_matter self = Ok (map (append "w_{idx}") rests) ->
  forallb brace_free rests = true ->
  to_latex self
  = Done (equation ++ nl
          ++ fold_left append
               (map (fun ir => numbered (fst ir) (snd ir))
                    (combine (seq 0 (length rests)) rests)) table_header
          ++ table_footer).
Proof.
  intros Hrows Hfree. unfold to_latex, _to_latex_table. rewrite Hrows.
  cbn [of_result obind]. rewrite append_rows_numbered by exact Hfree.
  reflexivity.
Qed.

Lemma to_latex_raises (self : Generator) (e : exn) :
  _get_table_matter self = Raise e -> to_latex self = Failed (Exn e).
Proof.
  intros H. unfold to_latex, _to_latex_table. now rewrite H.
Qed.

(** X18: the [format] call of [_to_latex_table] never raises.  Whenever
    [_get_table_matter] returns its rows there are [width] of them, each
    the symbol [w_{idx}] followed by a text without a brace, and
    [to_latex] returns the equation, a line feed and the table, row [idx]
    with the digits of [idx] in place of [{idx}]; when [_get_table_matter]
    raises, [to_latex] raises the same exception. *)
Theorem to_latex_outcomes (self : Generator) :
  (forall rows, _get_table_matter self = Ok rows ->
     exists rests,
       rows = map (append "w_{idx}") rests
       /\ length rests = width
       /\ forallb brace_free rests = true
       /\ to_latex self
          = Done (equation ++ nl
                  ++ fold_left append
                       (map (fun ir => numbered (fst ir) (snd ir))
                            (combine (seq 0 width) rests)) table_header
                  ++ table_footer))
  /\ (forall e, _get_table_matter self = Raise e -> to_latex self = Failed (Exn e)).
Proof.
  split; [|apply to_latex_raises].
  intros rows Hrows. pose proof Hrows as Hmatter.
  unfold _get_table_matter in Hrows.
  destruct (table_properties self) as [props|e] eqn:Hprops; [|discriminate].
  simpl in Hrows. apply rmap_inv in Hrows.
  unfold table_properties in Hprops. apply rmap_inv in Hprops.
  destruct (table_rows_shape self Hprops Hrows) as (rests & -> & Hlen & Hfree).
  rewrite length_seq in Hlen.
  exists rests. split; [reflexivity|]. split; [exact Hlen|]. split; [exact Hfree|].
  rewrite <- Hlen. now apply to_latex_of_rows.
Qed.

Lemma table_matter_unfitted (self : Generator) (pm ps : pyseq) :
  fit_mu self = None -> fit_sigma self = None ->
  prior_mu self = Some pm -> prior_sigma self = Some ps ->
  (width <= length (items pm))%nat -> (width <= length (items ps))%nat ->
  forallb F64.isinf (items ps) = true ->
  _get_table_matter self
  = Ok (map (append "w_{idx}") (map (fun _ => placeholder_rest) (seq 0 width))).
Proof.
  intros Hfm Hfs Hpm Hps Lpm Lps Hinf.
  assert (Hmu : fst (mu self) = Ok pm)
    by (unfold mu, getattr; now rewrite Hfm, Hpm).
  assert (Hsigma : fst (sigma self) = Ok ps)
    by (unfold sigma, getattr; now rewrite Hfs, Hps).
  unfold _get_table_matter.
  rewrite (table_properties_ok self Hmu Hsigma Hpm Hps Lpm Lps Lpm Lps).
  cbn [rbind]. rewrite rmap_map, map_map. apply rmap_ok.
  intros idx Hidx. apply in_seq in Hidx.
  assert (Hi : F64.isinf (nth idx (items ps) F64.zero) = true).
  { rewrite forallb_forall in Hinf. apply Hinf. apply nth_In. lia. }
  unfold table_row, format_significant_figures. cbn [fst snd].
  rewrite Hi, !orb_true_r. reflexivity.
Qed.

(** X19: a generator that has not been fitted and whose prior sigmas are
    all infinite, as the default priors are, has a table of [width]
    placeholder rows, [w_idx & $0 \pm \infty$  & $0 \pm \infty$ \\\hline]:
    neither [_get_table_matter] nor [to_latex] raises, whatever the prior
    means are. *)
Theorem to_latex_unfitted (self : Generator) (pm ps : pyseq) :
  fit_mu self = None -> fit_sigma self = None ->
  prior_mu self = Some pm -> prior_sigma self = Some ps ->
  (width <= length (items pm))%nat -> (width <= length (items ps))%nat ->
  forallb F64.isinf (items ps) = true ->
  _get_table_matter self
  = Ok (map (fun _ => "w_{idx}" ++ placeholder_rest) (seq 0 width))
  /\ to_latex self
     = Done (equation ++ nl
             ++ fold_left append
                  (map (fun idx => numbered idx placeholder_rest) (seq 0 width))
                  table_header
             ++ table_footer).
Proof.
  intros Hfm Hfs Hpm Hps Lpm Lps Hinf.
  pose proof (table_matter_unfitted self Hfm Hfs Hpm Hps Lpm Lps Hinf) as Hrows.
  split.
  - rewrite Hrows, map_map. reflexivity.
  - rewrite (to_latex_of_rows self _ Hrows).
    + rewrite length_map, length_seq.
      now rewrite (map_combine_const (fun ir => numbered (fst ir) (snd ir))).
    + apply forallb_forall. intros r Hr. apply in_map_iff in Hr as (? & <- & _).
      reflexivity.
Qed.

Lemma large_error_raises (mean error : float) :
  log10_above_ten L ->
  F64.isfinite mean = true -> F64.isfinite error = true ->
  F64.valid error = true ->
  F64.leb F64.ten (F64.abs error) = true ->
  format_significant_figures mean error
  = Raise (ValueError "Format specifier missing precision").
Proof.
  intros Hlib Hmean Herr Hval Hten.
  assert (Habs : F64.valid (F64.abs error) = true /\ F64.isfinite (F64.abs error) = true)
    by (destruct error; auto).
  destruct Habs as [Hv Hf].
  destruct (Hlib _ Hv Hf Hten) as (Hlv & Hlf & Hle).
  destruct (@py_floor_ge_one _ Hlv Hlf Hle) as (k & Hk & Hk1).
  unfold format_significant_figures.
  replace (F64.isinf mean || F64.isinf error || F64.isnan mean || F64.isnan error)
    with false by (destruct mean, error; simpl in *; congruence).
  replace (F64.eqb error F64.zero) with false
    by (destruct error as [s|s| |s m e]; try discriminate; destruct s; reflexivity).
  rewrite Hk. unfold rbind.
  destruct k as [|p|p]; try lia.
  change (- Z.pos p)%Z with (Z.neg p).
  now rewrite py_format_float_negative.
Qed.

(** X20: with a libm whose [log10] is at least [1.0] from [10.0] on, a
    generator that has one coefficient [idx < width] with a finite value
    and a finite uncertainty of absolute value at least 10 has no table:
    [_get_table_matter] raises, and [to_latex] raises the same
    exception. *)
Theorem to_latex_large_sigma (self : Generator) (m s pm ps : pyseq) (idx : nat) :
  log10_above_ten L ->
  fst (mu self) = Ok m -> fst (sigma self) = Ok s ->
  prior_mu self = Some pm -> prior_sigma self = Some ps ->
  (idx < width)%nat ->
  F64.isfinite (nth idx (items m) F64.zero) = true ->
  F64.isfinite (nth idx (items s) F64.zero) = true ->
  F64.valid (nth idx (items s) F64.zero) = true ->
  F64.leb F64.ten (F64.abs (nth idx (items s) F64.zero)) = true ->
  exists e, _get_table_matter self = Raise e /\ to_latex self = Failed (Exn e).
Proof.
  intros Hlib Hm Hs Hpm Hps Hidx Hmi Hsi Hval Hten.
  assert (Hraise : exists e, _get_table_matter self = Raise e).
  { unfold _get_table_matter.
    destruct (le_lt_dec width
                (Nat.min (Nat.min (length (items m)) (length (items s)))
                         (Nat.min (length (items pm)) (length (items ps)))))
      as [Hw|Hw].
    - rewrite (table_properties_ok self Hm Hs Hpm Hps) by lia.
      cbn [rbind]. rewrite rmap_map.
      apply rmap_fails with (x := idx)
                            (e := ValueError "Format specifier missing precision").
      + apply in_seq. lia.
      + unfold table_row. cbn [fst snd].
        now rewrite large_error_raises.
    - rewrite (table_properties_short self Hm Hs Hpm Hps Hw). simpl. eauto. }
  destruct Hraise as [e He]. exists e. split; [exact He|].
  now apply to_latex_raises.
Qed.

Lemma table_unset_prior_mu (self : Generator) :
  fit_mu self = None -> prior_mu self = None -> (0 < width)%nat ->
  fst (mu self) = Raise (AttributeError "prior_mu")
  /\ table_properties self = Raise (AttributeError "prior_mu")
  /\ to_latex self = Failed (Exn (AttributeError "prior_mu")).
Proof.
  intros Hfm Hpm Hw.
  assert (Hmu : fst (mu self) = Raise (AttributeError "prior_mu"))
    by (unfold mu, getattr; now rewrite Hfm, Hpm).
  assert (Htab : table_properties self = Raise (AttributeError "prior_mu")).
  { unfold table_properties. destruct width as [|w]; [lia|].
    cbn [seq rmap]. unfold table_property at 1. now rewrite Hmu. }
  split; [exact Hmu|]. split; [exact Htab|].
  apply to_latex_raises. unfold _get_table_matter. now rewrite Htab.
Qed.

(** X21: what the silent skip of a [prior_mu] of the wrong length leads
    to.  On a new generator of width at least 1 the validation ends
    normally, and then [mu], [table_properties] and [to_latex] all raise
    [AttributeError]: the attribute [prior_mu] does not exist. *)
Theorem wrong_length_prior_mu_report (s : pyseq) (sigma0 : pyobj) :
  length (items s) <> width -> sigma0 <> PyOther -> (0 < width)%nat ->
  exists self',
    _validate_priors (PySeq s) sigma0 blank = (Ok tt, self')
    /\ fst (mu self') = Raise (AttributeError "prior_mu")
    /\ table_properties self' = Raise (AttributeError "prior_mu")
    /\ to_latex self' = Failed (Exn (AttributeError "prior_mu")).
Proof.
  intros Hlen Hsig Hw. apply Nat.eqb_neq in Hlen.
  unfold _validate_priors, bind. rewrite Hlen. unfold ret.
  destruct sigma0 as [ | x | t | ]; try congruence.
  - eexists. split; [reflexivity|]. now apply table_unset_prior_mu.
  - eexists. split; [reflexivity|]. now apply table_unset_prior_mu.
  - destruct (length (items t) =? width)%nat;
      (eexists; split; [reflexivity|]; now apply table_unset_prior_mu).
Qed.

End LatexFacts.

Lemma to_latex_outcomes_witness :
  exists rests,
    length rests = 1%nat
    /\ to_latex (L := Reference.numlib) (G := Reference.constant 1) (R := linear_report)
         Reference.fitted
       = Done (equation (R := linear_report) ++ nl
               ++ fold_left append
                    (map (fun ir => numbered (fst ir) (snd ir))
                         (combine (seq 0 1) rests)) table_header
               ++ table_footer).
Proof.
  destruct (proj1 (@to_latex_outcomes Reference.numlib (Reference.constant 1)
                     linear_report Reference.fitted)
              ["w_{idx} & $3 \pm 1$  & $0 \pm \infty$ \\\hline" ++ nl] eq_refl)
    as (rests & _ & Hlen & _ & H).
  exists rests. split; [exact Hlen | exact H].
Defined.

Lemma to_latex_unfitted_witness :
  to_latex (L := Reference.numlib) (G := Reference.constant 2) (R := linear_report)
    (Reference.unfitted 2)
  = Done (equation (R := linear_report) ++ nl ++ table_header
          ++ "w_0" ++ placeholder_rest ++ "w_1" ++ placeholder_rest ++ table_footer).
Proof.
  exact (proj2 (@to_latex_unfitted Reference.numlib (Reference.constant 2)
                  linear_report (Reference.unfitted 2)
                  (array (repeat F64.zero 2)) (array (repeat F64.inf 2))
                  eq_refl eq_refl eq_refl eq_refl
                  (le_n 2) (le_n 2) eq_refl)).
Defined.

Lemma to_latex_large_sigma_witness :
  exists e,
    _get_table_matter (L := Reference.numlib) (G := Reference.constant 1) wide_fit
    = Raise e
    /\ to_latex (L := Reference.numlib) (G := Reference.constant 1) (R := linear_report)
         wide_fit = Failed (Exn e).
Proof.
  exact (@to_latex_large_sigma Reference.numlib (Reference.constant 1) linear_report
           wide_fit (array [F64.of_Z 3]) (array [F64.of_Z 12])
           (array [F64.zero]) (array [F64.inf]) 0%nat log10_ref_above_ten
           eq_refl eq_refl eq_refl eq_refl (le_n 1)
           eq_refl eq_refl eq_refl eq_refl).
Defined.

Lemma wrong_length_prior_mu_report_witness :
  exists self',
    _validate_priors (G := Reference.constant 2)
      (PySeq {| kind := PyList; items := [F64.one] |}) PyNone blank = (Ok tt, self')
    /\ fst (mu self') = Raise (AttributeError "prior_mu")
    /\ table_properties (G := Reference.constant 2) self'
       = Raise (AttributeError "prior_mu")
    /\ to_latex (L := Reference.numlib) (G := Reference.constant 2) (R := linear_report)
         self' = Failed (Exn (AttributeError "prior_mu")).
Proof.
  apply (@wrong_length_prior_mu_report Reference.numlib (Reference.constant 2)
           linear_report {| kind := PyList; items := [F64.one] |} PyNone).
  - simpl. lia.
  - discriminate.
  - simpl. lia.
Defined.
